(** * RagbotFrontend: the API client, the two state hooks and the
      handlers of the upload widget and of the question form.

    The client code is asynchronous glue around [fetch] and React state
    cells.  It is embedded here as computations in a small state and
    exception monad over a [World]: the React state cells of the three
    components, plus the browser (network, clock, the current DOM event).
    Each async function runs to completion; the network answers and the
    clock readings come from the world. *)

From Stdlib Require Import ZArith NArith List String Ascii Lia Bool.
From Stdlib Require Import DecimalString DecimalZ.
From stdpp Require Import base option list strings gmap.

Local Open Scope Z_scope.
Local Set Warnings "-register-all".

(** ** JavaScript values *)

(** A JavaScript string is a sequence of UTF-16 code units. *)
Definition jsstring := list N.

(** A string literal of the program text. *)
Definition lit (s : string) : jsstring :=
  map N_of_ascii (list_ascii_of_string s).
Arguments lit : simpl never.

(** WhiteSpace and LineTerminator code points of ECMAScript, the ones
    [String.prototype.trim] strips. *)
Definition isWhiteSpace (c : N) : bool :=
  ((c =? 0x9) || (c =? 0xA) || (c =? 0xB) || (c =? 0xC) || (c =? 0xD)
   || (c =? 0x20) || (c =? 0xA0) || (c =? 0x1680)
   || ((0x2000 <=? c) && (c <=? 0x200A))
   || (c =? 0x2028) || (c =? 0x2029) || (c =? 0x202F) || (c =? 0x205F)
   || (c =? 0x3000) || (c =? 0xFEFF))%N.

Fixpoint trimStart (s : jsstring) : jsstring :=
  match s with
  | c :: s' => if isWhiteSpace c then trimStart s' else s
  | [] => []
  end.

Definition trimEnd (s : jsstring) : jsstring := rev (trimStart (rev s)).

(** [s.trim()] *)
Definition trim (s : jsstring) : jsstring := trimEnd (trimStart s).

(** Truthiness of a string: only the empty string is falsy. *)
Definition truthy (s : jsstring) : bool :=
  match s with [] => false | _ :: _ => true end.

(** [n.toString()] for an integral number: decimal digits, with a minus
    sign for negative numbers. *)
Definition toString (n : Z) : jsstring :=
  lit (NilZero.string_of_int (Z.to_int n)).
Arguments toString : simpl never.

(** The values the program handles: what [JSON.parse] can produce, and
    [undefined].  A JSON number is kept as written, mantissa and decimal
    exponent. *)
Inductive JsValue :=
| VUndefined
| VNull
| VBool (b : bool)
| VNum (mantissa exp10 : Z)
| VStr (s : jsstring)
| VArr (items : list JsValue)
| VObj (props : list (jsstring * JsValue)).

Fixpoint assoc (k : jsstring) (props : list (jsstring * JsValue)) : JsValue :=
  match props with
  | [] => VUndefined
  | (k', v) :: rest => if bool_decide (k' = k) then v else assoc k rest
  end.

(** Thrown values.  [ApiError] is the class declared in lib/api.ts;
    [TypeError] is what [fetch] rejects with when the network fails and
    what reading a property of null raises; [SyntaxError] is what
    [response.json()] rejects with on a malformed body. *)
Inductive JsError :=
| Error (message : jsstring)
| ApiError (status : Z) (message : jsstring)
| TypeError (message : jsstring)
| SyntaxError (message : jsstring).

Definition message (e : JsError) : jsstring :=
  match e with
  | Error m | ApiError _ m | TypeError m | SyntaxError m => m
  end.

(** [err instanceof ApiError] *)
Definition instanceof_ApiError (e : JsError) : bool :=
  match e with ApiError _ _ => true | _ => false end.

(** ** Files, requests and responses *)

Record File := mkFile {
  file_name : jsstring;
  file_type : jsstring;      (* the MIME type, [file.type] *)
  file_size : N
}.

Inductive RequestBody :=
| FormData (entries : list (jsstring * File))
| JSON_stringify (v : JsValue).

Record Request := mkRequest {
  url : jsstring;
  method : jsstring;
  headers : list (jsstring * jsstring);
  body : RequestBody
}.

(** The body of a response as [response.json()] sees it. *)
Inductive ResponseBody :=
| Json (v : JsValue)
| Malformed (why : jsstring).

Record Response := mkResponse {
  status : Z;
  payload : ResponseBody
}.

(** [response.ok]: the status is in the range 200-299. *)
Definition ok (r : Response) : bool :=
  (200 <=? status r) && (status r <=? 299).

Inductive FetchOutcome :=
| Responded (r : Response)
| NetworkFailure (why : jsstring).

(** ** Component state *)

Module QuestionHistory.
(** An entry of the question history (interface QuestionHistory).  The
    answer and the snippets are whatever the parsed body holds under
    these names. *)
Record t := mk {
  id : jsstring;
  question : jsstring;
  answer : JsValue;
  source_documents : JsValue;
  timestamp : Z
}.
End QuestionHistory.

Module UploadState.
(** The three state cells of useFileUpload. *)
Record t := mk {
  uploading : bool;
  uploadResult : JsValue;          (* UploadResponse | null *)
  error : option jsstring          (* string | null *)
}.
Definition initial : t := mk false VNull None.
End UploadState.

Module QuestionsState.
(** The three state cells of useQuestions. *)
Record t := mk {
  loading : bool;
  history : list QuestionHistory.t;
  error : option jsstring
}.
Definition initial : t := mk false [] None.
End QuestionsState.

Module HomeState.
(** The two state cells of the page component. *)
Record t := mk {
  hasUploadedFile : bool;
  uploadResult : JsValue
}.
Definition initial : t := mk false VNull.
End HomeState.

(** The browser: the build-time setting of the base URL, the answers the
    network will give (the n-th [fetch] gets the n-th answer), the
    requests sent so far, the clock (the n-th reading of the time gets
    the n-th value) and whether the default action of the event being
    handled was prevented. *)
Record Browser := mkBrowser {
  NEXT_PUBLIC_API_URL : option jsstring;
  network : nat -> FetchOutcome;
  sent : list Request;
  clock : nat -> Z;
  clock_reads : nat;
  defaultPrevented : bool
}.

Record World := mkWorld {
  fileUpload : UploadState.t;
  questions : QuestionsState.t;
  question : jsstring;               (* the input of the question form *)
  home : HomeState.t;
  browser : Browser
}.

(** ** The monad of asynchronous computations *)

Inductive Completion (A : Type) :=
| Normal (a : A)
| Throw (e : JsError).
Arguments Normal {A} a.
Arguments Throw {A} e.

Definition Async (A : Type) : Type := World -> Completion A * World.

Definition ret {A} (a : A) : Async A := fun w => (Normal a, w).

Definition throw {A} (e : JsError) : Async A := fun w => (Throw e, w).

Definition bind {A B} (m : Async A) (k : A -> Async B) : Async B :=
  fun w =>
    match m w with
    | (Normal a, w') => k a w'
    | (Throw e, w') => (Throw e, w')
    end.

(** stdpp's monad notations: [x ← m; k] and [m;; k]. *)
#[global] Instance Async_ret : MRet Async := @ret.
#[global] Instance Async_bind : MBind Async := fun A B k m => bind m k.

(** [try { body } catch (err) { handler }] *)
Definition try_catch {A} (body : Async A) (handler : JsError -> Async A)
  : Async A :=
  fun w =>
    match body w with
    | (Normal a, w') => (Normal a, w')
    | (Throw e, w') => handler e w'
    end.

(** [try { body } finally { final }]: [final] runs however [body]
    completes; the completion of [body] stands unless [final] throws. *)
Definition try_finally {A} (body : Async A) (final : Async unit) : Async A :=
  fun w =>
    match body w with
    | (c, w') =>
        match final w' with
        | (Normal _, w'') => (c, w'')
        | (Throw e, w'') => (Throw e, w'')
        end
    end.

(** [try { body } catch (err) { handler } finally { final }] *)
Definition try_catch_finally {A} (body : Async A)
    (handler : JsError -> Async A) (final : Async unit) : Async A :=
  try_finally (try_catch body handler) final.

Definition modify (f : World -> World) : Async unit :=
  fun w => (Normal tt, f w).

Definition gets {A} (f : World -> A) : Async A :=
  fun w => (Normal (f w), w).

(** ** The browser interface *)

Definition set_browser (b : Browser) (w : World) : World :=
  mkWorld (fileUpload w) (questions w) (question w) (home w) b.

(** [e.preventDefault()] *)
Definition preventDefault : Async unit :=
  modify (fun w =>
    let b := browser w in
    set_browser (mkBrowser (NEXT_PUBLIC_API_URL b) (network b) (sent b)
                           (clock b) (clock_reads b) true) w).

(** Reading the time: [Date.now()], and the time value of [new Date()]. *)
Definition Date_now : Async Z :=
  fun w =>
    let b := browser w in
    (Normal (clock b (clock_reads b)),
     set_browser (mkBrowser (NEXT_PUBLIC_API_URL b) (network b) (sent b)
                            (clock b) (S (clock_reads b))
                            (defaultPrevented b)) w).

Definition new_Date : Async Z := Date_now.

(** [await fetch(url, init)]: the request is sent; the promise rejects
    with a TypeError when no response is obtained. *)
Definition fetch (rq : Request) : Async Response :=
  fun w =>
    let b := browser w in
    let w' :=
      set_browser (mkBrowser (NEXT_PUBLIC_API_URL b) (network b)
                             (sent b ++ [rq]) (clock b) (clock_reads b)
                             (defaultPrevented b)) w in
    match network b (length (sent b)) with
    | Responded r => (Normal r, w')
    | NetworkFailure why => (Throw (TypeError why), w')
    end.

(** [response.json()] *)
Definition json (r : Response) : Async JsValue :=
  match payload r with
  | Json v => ret v
  | Malformed why => throw (SyntaxError why)
  end.

(** [v.name] for a property name that no built-in prototype defines:
    a TypeError on null and undefined, the own property of an object,
    undefined otherwise. *)
Definition get_prop (v : JsValue) (name : jsstring) : Async JsValue :=
  match v with
  | VUndefined | VNull =>
      throw (TypeError (lit "Cannot read properties of null or undefined"))
  | VObj props => ret (assoc name props)
  | _ => ret VUndefined
  end.

(** ** lib/api.ts *)

(** [process.env.NEXT_PUBLIC_API_URL || 'http://localhost:8000'] *)
Definition API_BASE_URL (w : World) : jsstring :=
  match NEXT_PUBLIC_API_URL (browser w) with
  | Some u => if truthy u then u else lit "http://localhost:8000"
  | None => lit "http://localhost:8000"
  end.

Module api.

Definition uploadPdf (file : File) : Async JsValue :=
  let formData := FormData [(lit "file", file)] in
  base ← gets API_BASE_URL;
  response ← fetch (mkRequest (base ++ lit "/upload-pdf") (lit "POST")
                               [] formData);
  if negb (ok response)
  then throw (Error (lit "Upload failed"))
  else json response.

Definition askQuestion (question : jsstring) : Async JsValue :=
  base ← gets API_BASE_URL;
  response ← fetch (mkRequest (base ++ lit "/ask-question") (lit "POST")
                       [(lit "Content-Type", lit "application/json")]
                       (JSON_stringify
                          (VObj [(lit "question", VStr question)])));
  if negb (ok response)
  then throw (Error (lit "Question failed"))
  else json response.

End api.

(** The operations of the [api] object, by property name. *)
Inductive ApiOperation :=
| OnFile (f : File -> Async JsValue)
| OnText (f : jsstring -> Async JsValue).

Definition api_object : gmap string ApiOperation :=
  {[ "uploadPdf"%string := OnFile api.uploadPdf;
     "askQuestion"%string := OnText api.askQuestion ]}.

(** ** hooks/useFileUpload.ts *)

Module useFileUpload.
Import UploadState.

Definition set_state (s : UploadState.t) (w : World) : World :=
  mkWorld s (questions w) (question w) (home w) (browser w).

Definition setUploading (b : bool) : Async unit :=
  modify (fun w => let s := fileUpload w in
                   set_state (mk b (uploadResult s) (error s)) w).

Definition setUploadResult (r : JsValue) : Async unit :=
  modify (fun w => let s := fileUpload w in
                   set_state (mk (uploading s) r (error s)) w).

Definition setError (e : option jsstring) : Async unit :=
  modify (fun w => let s := fileUpload w in
                   set_state (mk (uploading s) (uploadResult s) e) w).

Definition uploadFile (file : File) : Async JsValue :=
  setUploading true ;;
  setError None ;;
  try_catch_finally
    (result ← api.uploadPdf file;
     setUploadResult result ;;
     ret result)
    (fun err =>
       let errorMessage :=
         if instanceof_ApiError err then message err
         else lit "Upload failed" in
       setError (Some errorMessage) ;;
       throw err)
    (setUploading false).

Definition reset : Async unit :=
  setUploadResult VNull ;;
  setError None.

End useFileUpload.

(** ** hooks/useQuestions.ts *)

Module useQuestions.
Import QuestionsState.

Definition set_state (s : QuestionsState.t) (w : World) : World :=
  mkWorld (fileUpload w) s (question w) (home w) (browser w).

Definition setLoading (b : bool) : Async unit :=
  modify (fun w => let s := questions w in
                   set_state (mk b (history s) (error s)) w).

(** [setHistory(f)], the functional update. *)
Definition setHistory
    (f : list QuestionHistory.t -> list QuestionHistory.t) : Async unit :=
  modify (fun w => let s := questions w in
                   set_state (mk (loading s) (f (history s)) (error s)) w).

Definition setError (e : option jsstring) : Async unit :=
  modify (fun w => let s := questions w in
                   set_state (mk (loading s) (history s) e) w).

Definition askQuestion (question : jsstring) : Async JsValue :=
  setLoading true ;;
  setError None ;;
  try_catch_finally
    (result ← api.askQuestion question;
     now ← Date_now;
     answer ← get_prop result (lit "answer");
     source_documents ← get_prop result (lit "source_documents");
     timestamp ← new_Date;
     let newEntry :=
       QuestionHistory.mk (toString now) question answer source_documents
                         timestamp in
     setHistory (fun prev => newEntry :: prev) ;;
     ret result)
    (fun err =>
       let errorMessage :=
         if instanceof_ApiError err then message err
         else lit "Question failed" in
       setError (Some errorMessage) ;;
       throw err)
    (setLoading false).

Definition clearHistory : Async unit :=
  setHistory (fun _ => []).

End useQuestions.

(** ** app/page.tsx *)

Module Home.
Import HomeState.

Definition set_state (s : HomeState.t) (w : World) : World :=
  mkWorld (fileUpload w) (questions w) (question w) s (browser w).

Definition setUploadResult (r : JsValue) : Async unit :=
  modify (fun w => set_state (mk (hasUploadedFile (home w)) r) w).

Definition setHasUploadedFile (b : bool) : Async unit :=
  modify (fun w => set_state (mk b (uploadResult (home w))) w).

Definition handleUploadSuccess (result : JsValue) : Async unit :=
  setUploadResult result ;;
  setHasUploadedFile true.

End Home.

(** ** components/FileUpload.tsx *)

Module FileUpload.
Section Props.

Variable onUploadSuccess : JsValue -> Async unit.

Definition handleFileSelect (file : File) : Async unit :=
  try_catch
    (result ← useFileUpload.uploadFile file;
     onUploadSuccess result)
    (fun _ => ret tt).

(** [e.dataTransfer.files] is the list [files]. *)
Definition handleDrop (files : list File) : Async unit :=
  preventDefault ;;
  let pdfFile :=
    find (fun file => bool_decide (file_type file = lit "application/pdf"))
         files in
  match pdfFile with
  | Some pdfFile => handleFileSelect pdfFile
  | None => ret tt
  end.

(** [e.target.files] is [files], null when the input has none. *)
Definition handleFileInput (files : option (list File)) : Async unit :=
  let file := match files with Some l => head l | None => None end in
  match file with
  | Some file => handleFileSelect file
  | None => ret tt
  end.

Definition resetUpload : Async unit := useFileUpload.reset.

End Props.
End FileUpload.

(** ** components/QuestionInterface.tsx *)

Module QuestionInterface.

Definition setQuestion (s : jsstring) : Async unit :=
  modify (fun w =>
    mkWorld (fileUpload w) (questions w) s (home w) (browser w)).

Definition handleSubmit (disabled : bool) : Async unit :=
  preventDefault ;;
  question ← gets question;
  loading ← gets (fun w => QuestionsState.loading (questions w));
  if negb (truthy (trim question)) || loading || disabled then ret tt
  else
    try_catch
      (useQuestions.askQuestion (trim question) ;;
       setQuestion [])
      (fun _ => ret tt).

End QuestionInterface.

(** ** Running the program *)

(** A world before any interaction. *)
Definition boot (url : option jsstring) (net : nat -> FetchOutcome)
    (clk : nat -> Z) : World :=
  mkWorld UploadState.initial QuestionsState.initial [] HomeState.initial
          (mkBrowser url net [] clk 0 false).

Definition exec {A} (m : Async A) (w : World) : World := snd (m w).
Definition result {A} (m : Async A) (w : World) : Completion A := fst (m w).

Definition resolved {A} (c : Completion A) : bool :=
  match c with Normal _ => true | Throw _ => false end.

(** The world after one more request went out. *)
Definition send (rq : Request) (w : World) : World :=
  let b := browser w in
  set_browser (mkBrowser (NEXT_PUBLIC_API_URL b) (network b) (sent b ++ [rq])
                         (clock b) (clock_reads b) (defaultPrevented b)) w.

(** The answer the network gives to the next request. *)
Definition next_answer (w : World) : FetchOutcome :=
  network (browser w) (length (sent (browser w))).

(** The requests the two operations of the client build. *)
Definition upload_request (w : World) (file : File) : Request :=
  mkRequest (API_BASE_URL w ++ lit "/upload-pdf") (lit "POST") []
            (FormData [(lit "file", file)]).

Definition ask_request (w : World) (q : jsstring) : Request :=
  mkRequest (API_BASE_URL w ++ lit "/ask-question") (lit "POST")
            [(lit "Content-Type", lit "application/json")]
            (JSON_stringify (VObj [(lit "question", VStr q)])).

(** The message a hook shows for a caught error. *)
Definition display (fallback : jsstring) (err : JsError) : jsstring :=
  if instanceof_ApiError err then message err else fallback.

(** What a call of the client settles to, given the network's answer. *)
Definition settle (fallback : jsstring) (o : FetchOutcome)
  : Completion JsValue :=
  match o with
  | NetworkFailure why => Throw (TypeError why)
  | Responded r =>
      if ok r then
        match payload r with
        | Json v => Normal v
        | Malformed why => Throw (SyntaxError why)
        end
      else Throw (Error fallback)
  end.

(** The world after [n] more readings of the clock. *)
Definition tick (n : nat) (w : World) : World :=
  let b := browser w in
  set_browser (mkBrowser (NEXT_PUBLIC_API_URL b) (network b) (sent b)
                         (clock b) (n + clock_reads b)
                         (defaultPrevented b)) w.

(** The values on which a property read throws. *)
Definition nullish (v : JsValue) : bool :=
  match v with VUndefined | VNull => true | _ => false end.

(** The value of [v.name] where the read does not throw. *)
Definition prop (v : JsValue) (name : jsstring) : JsValue :=
  match v with VObj props => assoc name props | _ => VUndefined end.

(** The entry askQuestion builds in world [w] for question [q] and
    parsed body [v]: two readings of the clock, one for the identifier
    and one for the creation time. *)
Definition new_entry (w : World) (q : jsstring) (v : JsValue)
  : QuestionHistory.t :=
  let b := browser w in
  QuestionHistory.mk (toString (clock b (clock_reads b))) q
    (prop v (lit "answer")) (prop v (lit "source_documents"))
    (clock b (S (clock_reads b))).

(** *** Sessions: sequences of completed user actions *)

Inductive UploadAction :=
| Trigger (file : File)                  (* the hook's trigger *)
| Discard                               (* the hook's reset *)
| DropFiles (files : list File)         (* a drop on the widget *)
| PickFiles (files : option (list File)). (* a change of the file input *)

Definition upload_step (a : UploadAction) (w : World) : World :=
  match a with
  | Trigger file => exec (useFileUpload.uploadFile file) w
  | Discard => exec useFileUpload.reset w
  | DropFiles files =>
      exec (FileUpload.handleDrop Home.handleUploadSuccess files) w
  | PickFiles files =>
      exec (FileUpload.handleFileInput Home.handleUploadSuccess files) w
  end.

Definition upload_session (acts : list UploadAction) (w : World) : World :=
  fold_left (fun w a => upload_step a w) acts w.

Inductive QuestionAction :=
| Ask (q : jsstring)                   (* the hook's trigger *)
| Clear                                (* the hook's clear *)
| Submit (disabled : bool)             (* a submit of the form *)
| Input (s : jsstring).                (* typing into the form *)

Definition question_step (a : QuestionAction) (w : World) : World :=
  match a with
  | Ask q => exec (useQuestions.askQuestion q) w
  | Clear => exec useQuestions.clearHistory w
  | Submit disabled => exec (QuestionInterface.handleSubmit disabled) w
  | Input s => exec (QuestionInterface.setQuestion s) w
  end.

Definition question_session (acts : list QuestionAction) (w : World) : World :=
  fold_left (fun w a => question_step a w) acts w.

(** Asking the questions [qs] one after the other; the flag tells whether
    every call resolved. *)
Fixpoint ask_all (qs : list jsstring) (w : World) : bool * World :=
  match qs with
  | [] => (true, w)
  | q :: qs' =>
      let (c, w') := useQuestions.askQuestion q w in
      let (b, w'') := ask_all qs' w' in
      (resolved c && b, w'')
  end.

(** [ks] strictly decreasing. *)
Fixpoint decreasing (ks : list nat) : Prop :=
  match ks with
  | [] => True
  | k :: rest => Forall (fun k' => (k' < k)%nat) rest ∧ decreasing rest
  end.

(** *** Concrete inputs used below *)

Definition a_pdf : File :=
  mkFile (lit "a.pdf") (lit "application/pdf") 1400000.

Definition notes_txt : File :=
  mkFile (lit "notes.txt") (lit "text/plain") 120.

Definition answer_body : JsValue :=
  VObj [(lit "answer", VStr (lit "X is..."));
        (lit "source_documents", VArr [VStr (lit "p.3")])].

Definition upload_body : JsValue :=
  VObj [(lit "message", VStr (lit "PDF processed"));
        (lit "filename", VStr (lit "a.pdf"));
        (lit "chunks_created", VNum 12 0);
        (lit "file_size_mb", VNum 14 (-1))].

Definition too_large : Response :=
  mkResponse 413 (Json (VObj [(lit "detail", VStr (lit "File too large"))])).

Definition server_down : Response :=
  mkResponse 500 (Malformed (lit "Unexpected token I in JSON")).

Definition always (r : Response) : nat -> FetchOutcome :=
  fun _ => Responded r.

(** The first request is answered with 200, every later one with 500. *)
Definition ok_then_down (v : JsValue) : nat -> FetchOutcome :=
  fun n => match n with
           | O => Responded (mkResponse 200 (Json v))
           | S _ => Responded server_down
           end.

Definition ticking : nat -> Z := fun n => 1700000000000 + Z.of_nat n.

Definition frozen : nat -> Z := fun _ => 1700000000000.

(** Unfolding the monad. *)
Ltac run :=
  unfold mbind, Async_bind, bind, ret, throw, modify, gets,
         try_catch_finally, try_finally, try_catch in *.

(** A world in which a question is in flight and one in which the form
    holds a question; both after a successful first question. *)
Definition asking (w : World) : World :=
  useQuestions.set_state
    (QuestionsState.mk true (QuestionsState.history (questions w))
       (QuestionsState.error (questions w))) w.

Definition typed (s : jsstring) (w : World) : World :=
  exec (QuestionInterface.setQuestion s) w.

(** The world in which the client is called: the synchronous prefix of
    the two triggers has run. *)
Definition upload_called (w : World) : World :=
  exec (useFileUpload.setUploading true ;; useFileUpload.setError None) w.

Definition ask_called (w : World) : World :=
  exec (useQuestions.setLoading true ;; useQuestions.setError None) w.

(** One answered question, then a failed one. *)
Definition after_failed_question : World :=
  question_session [Ask (lit "Q1"); Ask (lit "Q2")]
    (boot None (ok_then_down answer_body) ticking).

(** The identifiers of the entries of the history, newest first. *)
Definition ids (w : World) : list jsstring :=
  map QuestionHistory.id (QuestionsState.history (questions w)).

(** Two questions typed and submitted while the clock shows the same
    millisecond throughout. *)
Definition same_millisecond : World :=
  question_session
    [Input (lit "Q1"); Submit false; Input (lit "Q2"); Submit false]
    (boot None (always (mkResponse 200 (Json answer_body))) frozen).

(** How one action may change the history: the clock itself stays, its
    readings only go on, and the history is kept, emptied, or extended in
    front by one entry named after the next reading of the clock. *)
Definition history_change (w w' : World) : Prop :=
  clock (browser w') = clock (browser w)
  ∧ (clock_reads (browser w) ≤ clock_reads (browser w'))%nat
  ∧ (QuestionsState.history (questions w') =
       QuestionsState.history (questions w)
     ∨ QuestionsState.history (questions w') = []
     ∨ ∃ e, QuestionsState.history (questions w') =
              e :: QuestionsState.history (questions w)
            ∧ QuestionHistory.id e =
                toString (clock (browser w) (clock_reads (browser w)))
            ∧ (clock_reads (browser w) < clock_reads (browser w'))%nat).

(** The identifiers are the readings of the clock numbered [ks]. *)
Definition ids_from_readings (w : World) (ks : list nat) : Prop :=
  ids w = map (fun k => toString (clock (browser w) k)) ks
  ∧ decreasing ks
  ∧ Forall (fun k => (k < clock_reads (browser w))%nat) ks.

(** The file a drop selects: the first one whose MIME type is
    application/pdf. *)
Definition dropped_pdf (files : list File) : option File :=
  find (fun file => bool_decide (file_type file = lit "application/pdf"))
       files.

(** The widget as the page mounts it, before any interaction, with a
    service that accepts every upload. *)
Definition fresh_page : World :=
  boot None (always (mkResponse 200 (Json upload_body))) ticking.

(** ** What the components render *)

Module HomeView.
(** The right column of the page,
    [{hasUploadedFile && <QuestionInterface disabled={!hasUploadedFile} />}]:
    the [disabled] prop of the question form when the form is mounted,
    nothing when the placeholder is shown instead. *)
Definition questionInterface (w : World) : option bool :=
  if HomeState.hasUploadedFile (home w)
  then Some (negb (HomeState.hasUploadedFile (home w)))
  else None.
End HomeView.

Module QuestionInterfaceView.
(** The [disabled] attribute of the submit button,
    [!question.trim() || loading || disabled]. *)
Definition submitDisabled (disabled : bool) (w : World) : bool :=
  negb (truthy (trim (question w)))
  || QuestionsState.loading (questions w) || disabled.
End QuestionInterfaceView.

(** *** Sessions on the page *)

(** The events of the page.  The events of the question form can only
    occur while the page has the form mounted. *)
Inductive PageAction :=
| OnDrop (files : list File)
| OnFileInput (files : option (list File))
| OnResetUpload
| OnChange (s : jsstring)
| OnSubmit
| OnClearHistory.

Definition page_step (a : PageAction) (w : World) : World :=
  match a with
  | OnDrop files =>
      exec (FileUpload.handleDrop Home.handleUploadSuccess files) w
  | OnFileInput files =>
      exec (FileUpload.handleFileInput Home.handleUploadSuccess files) w
  | OnResetUpload => exec FileUpload.resetUpload w
  | OnChange s =>
      match HomeView.questionInterface w with
      | Some _ => exec (QuestionInterface.setQuestion s) w
      | None => w
      end
  | OnSubmit =>
      match HomeView.questionInterface w with
      | Some disabled => exec (QuestionInterface.handleSubmit disabled) w
      | None => w
      end
  | OnClearHistory =>
      match HomeView.questionInterface w with
      | Some _ => exec useQuestions.clearHistory w
      | None => w
      end
  end.

Definition page_session (acts : list PageAction) (w : World) : World :=
  fold_left (fun w a => page_step a w) acts w.

(** A request as the client builds them: a POST to one of the two paths
    under [base]. *)
Definition client_request (base : jsstring) (rq : Request) : Prop :=
  method rq = lit "POST"
  ∧ (url rq = base ++ lit "/upload-pdf"
     ∨ url rq = base ++ lit "/ask-question").

(** A request that carries a file. *)
Definition is_upload (rq : Request) : bool :=
  match body rq with FormData _ => true | JSON_stringify _ => false end.

(** A string that neither starts nor ends with white space. *)
Definition clean_ends (s : jsstring) : Prop :=
  (∀ c, head s = Some c → isWhiteSpace c = false)
  ∧ (∀ c, last s = Some c → isWhiteSpace c = false).

(** A session of the question form in which the history is never
    cleared. *)
Definition never_cleared (acts : list QuestionAction) : Prop :=
  Forall (fun a => a ≠ Clear) acts.

(** What one event of the page can do to the state of the components
    and to the request log. *)
Inductive page_effect (w w' : World) : Prop :=
| effect_none :
    fileUpload w' = fileUpload w → questions w' = questions w →
    home w' = home w → question w' = question w →
    sent (browser w') = sent (browser w) → page_effect w w'
| effect_typed :
    HomeState.hasUploadedFile (home w) = true →
    fileUpload w' = fileUpload w → questions w' = questions w →
    home w' = home w → sent (browser w') = sent (browser w) →
    page_effect w w'
| effect_uploaded (f : File) (r : JsValue) :
    fileUpload w' = UploadState.mk false r None →
    home w' = HomeState.mk true r →
    questions w' = questions w → question w' = question w →
    sent (browser w') = sent (browser w) ++ [upload_request w f] →
    page_effect w w'
| effect_upload_failed (f : File) :
    fileUpload w' =
      UploadState.mk false (UploadState.uploadResult (fileUpload w))
        (Some (lit "Upload failed")) →
    home w' = home w →
    questions w' = questions w → question w' = question w →
    sent (browser w') = sent (browser w) ++ [upload_request w f] →
    page_effect w w'
| effect_reset :
    fileUpload w' =
      UploadState.mk (UploadState.uploading (fileUpload w)) VNull None →
    home w' = home w →
    questions w' = questions w → question w' = question w →
    sent (browser w') = sent (browser w) → page_effect w w'
| effect_answered (e : QuestionHistory.t) :
    HomeState.hasUploadedFile (home w) = true →
    QuestionsState.loading (questions w) = false →
    trim (question w) ≠ [] →
    QuestionHistory.question e = trim (question w) →
    questions w' =
      QuestionsState.mk false (e :: QuestionsState.history (questions w))
        None →
    question w' = [] →
    fileUpload w' = fileUpload w → home w' = home w →
    sent (browser w') =
      sent (browser w) ++ [ask_request w (trim (question w))] →
    page_effect w w'
| effect_ask_failed :
    HomeState.hasUploadedFile (home w) = true →
    QuestionsState.loading (questions w) = false →
    trim (question w) ≠ [] →
    questions w' =
      QuestionsState.mk false (QuestionsState.history (questions w))
        (Some (lit "Question failed")) →
    question w' = question w →
    fileUpload w' = fileUpload w → home w' = home w →
    sent (browser w') =
      sent (browser w) ++ [ask_request w (trim (question w))] →
    page_effect w w'
| effect_cleared :
    HomeState.hasUploadedFile (home w) = true →
    questions w' =
      QuestionsState.mk (QuestionsState.loading (questions w)) []
        (QuestionsState.error (questions w)) →
    question w' = question w →
    fileUpload w' = fileUpload w → home w' = home w →
    sent (browser w') = sent (browser w) → page_effect w w'.

(** ** Calls in flight *)

(** Run to completion, a call of an async function shows only the state
    it ends in.  What the page shows meanwhile depends on where the call
    is suspended: a call runs until it awaits the network; there the
    request is out, as number [n] of the log, and the rest of the call
    waits.  It is resumed with the answer, in the world as the events
    since then have left it. *)
Inductive Run (A : Type) :=
| Done (c : Completion A) (w : World)
| Awaiting (n : nat) (w : World) (resume : FetchOutcome → World → Run A).
Arguments Done {A} c w.
Arguments Awaiting {A} n w resume.

Definition Task (A : Type) : Type := World → Run A.

(** What follows a run, once it is done. *)
Fixpoint and_then {A B} (r : Run A) (k : Completion A → World → Run B)
  : Run B :=
  match r with
  | Done c w => k c w
  | Awaiting n w resume =>
      Awaiting n w (fun o w' => and_then (resume o w') k)
  end.

(** Code that does not await: it runs at once. *)
Definition sync {A} (m : Async A) : Task A :=
  fun w => let (c, w') := m w in Done c w'.

Definition task_bind {A B} (m : Task A) (k : A → Task B) : Task B :=
  fun w =>
    and_then (m w)
      (fun c w' =>
         match c with
         | Normal a => k a w'
         | Throw e => Done (Throw e) w'
         end).

#[global] Instance Task_ret : MRet Task := fun A a => sync (ret a).
#[global] Instance Task_bind : MBind Task := fun A B k m => task_bind m k.

(** [try { body } catch (err) { handler }] *)
Definition task_try_catch {A} (body : Task A) (handler : JsError → Task A)
  : Task A :=
  fun w =>
    and_then (body w)
      (fun c w' =>
         match c with
         | Normal a => Done (Normal a) w'
         | Throw e => handler e w'
         end).

(** [try { body } finally { final }] *)
Definition task_try_finally {A} (body : Task A) (final : Task unit)
  : Task A :=
  fun w =>
    and_then (body w)
      (fun c w' =>
         and_then (final w')
           (fun c' w'' =>
              match c' with
              | Normal _ => Done c w''
              | Throw e => Done (Throw e) w''
              end)).

(** [try { body } catch (err) { handler } finally { final }] *)
Definition task_try_catch_finally {A} (body : Task A)
    (handler : JsError → Task A) (final : Task unit) : Task A :=
  task_try_finally (task_try_catch body handler) final.

(** [await fetch(url, init)]: the request is sent and the call is
    suspended until the answer is there. *)
Definition await_fetch (rq : Request) : Task Response :=
  fun w =>
    Awaiting (length (sent (browser w))) (send rq w)
      (fun o w' =>
         match o with
         | Responded r => Done (Normal r) w'
         | NetworkFailure why => Done (Throw (TypeError why)) w'
         end).

(** A run taken to its end: every awaited answer is the one the network
    of the world gives to that request, and nothing happens meanwhile. *)
Fixpoint complete {A} (r : Run A) : Completion A * World :=
  match r with
  | Done c w => (c, w)
  | Awaiting n w resume => complete (resume (network (browser w) n) w)
  end.

(** The upload path of the client, the hook and the widget, with its
    await. *)
Module InFlight.

(** lib/api.ts *)
Definition uploadPdf (file : File) : Task JsValue :=
  let formData := FormData [(lit "file", file)] in
  base ← sync (gets API_BASE_URL);
  response ← await_fetch (mkRequest (base ++ lit "/upload-pdf") (lit "POST")
                                     [] formData);
  if negb (ok response)
  then sync (throw (Error (lit "Upload failed")))
  else sync (json response).

(** hooks/useFileUpload.ts *)
Definition uploadFile (file : File) : Task JsValue :=
  sync (useFileUpload.setUploading true) ;;
  sync (useFileUpload.setError None) ;;
  task_try_catch_finally
    (result ← uploadPdf file;
     sync (useFileUpload.setUploadResult result) ;;
     sync (ret result))
    (fun err =>
       let errorMessage :=
         if instanceof_ApiError err then message err
         else lit "Upload failed" in
       sync (useFileUpload.setError (Some errorMessage)) ;;
       sync (throw err))
    (sync (useFileUpload.setUploading false)).

(** components/FileUpload.tsx *)
Definition handleFileSelect (onUploadSuccess : JsValue → Async unit)
    (file : File) : Task unit :=
  task_try_catch
    (result ← uploadFile file;
     sync (onUploadSuccess result))
    (fun _ => sync (ret tt)).

Definition handleDrop (onUploadSuccess : JsValue → Async unit)
    (files : list File) : Task unit :=
  sync preventDefault ;;
  let pdfFile :=
    find (fun file => bool_decide (file_type file = lit "application/pdf"))
         files in
  match pdfFile with
  | Some pdfFile => handleFileSelect onUploadSuccess pdfFile
  | None => sync (ret tt)
  end.

End InFlight.

(** *** Uploads that overlap *)

(** The calls of the trigger that are suspended: the number of the
    request each awaits, and the rest of the call. *)
Definition Flights : Type :=
  list (nat * (FetchOutcome → World → Run JsValue)).

Inductive FlightEvent :=
| Invoke (file : File)        (* the trigger is called *)
| Arrive (i : nat)            (* the answer for the i-th suspended call *)
| Discarded.                  (* the hook's reset is called *)

(** Where a run leaves the world and the suspended calls. *)
Definition land (r : Run JsValue) (others : Flights) : World * Flights :=
  match r with
  | Done _ w => (w, others)
  | Awaiting n w resume => (w, others ++ [(n, resume)])
  end.

Definition flight_step (ev : FlightEvent) (s : World * Flights)
  : World * Flights :=
  let (w, calls) := s in
  match ev with
  | Invoke file => land (InFlight.uploadFile file w) calls
  | Arrive i =>
      match calls !! i with
      | Some (n, resume) =>
          land (resume (network (browser w) n) w) (delete i calls)
      | None => s
      end
  | Discarded => (exec useFileUpload.reset w, calls)
  end.

Definition flight_session (evs : list FlightEvent) (s : World * Flights)
  : World * Flights :=
  fold_left (fun s ev => flight_step ev s) evs s.

(** What the rest of a call of [uploadFile] does with the answer [o] in
    the world [w] it is resumed in. *)
Definition uploadFile_resumed (o : FetchOutcome) (w : World)
  : Run JsValue :=
  let s := fileUpload w in
  match settle (lit "Upload failed") o with
  | Normal r =>
      Done (Normal r)
        (useFileUpload.set_state
           (UploadState.mk false r (UploadState.error s)) w)
  | Throw e =>
      Done (Throw e)
        (useFileUpload.set_state
           (UploadState.mk false (UploadState.uploadResult s)
              (Some (display (lit "Upload failed") e))) w)
  end.

(** What holds of the world and the suspended calls throughout a session
    of overlapping uploads: every suspended call ends, whenever it is
    resumed, with [uploading] false; and [uploading] is false when no
    call is suspended. *)
Definition flights_inv (s : World * Flights) : Prop :=
  Forall (fun call => ∀ o w, snd call o w = uploadFile_resumed o w) (snd s)
  ∧ (snd s = [] → UploadState.uploading (fileUpload (fst s)) = false).

(** Unfolding the operations on tasks. *)
Ltac run_task :=
  unfold mbind, Task_bind, task_bind, task_try_catch_finally,
         task_try_finally, task_try_catch, await_fetch, sync in *.

(** A clock on which the two readings taken for one entry fall into the
    same millisecond. *)
Definition paired : nat → Z := fun n => 1700000000000 + Z.of_nat (n / 2).

(** * Properties *)

(** ** The API client *)

Lemma uploadPdf_run (file : File) (w : World) :
  api.uploadPdf file w =
    (settle (lit "Upload failed") (next_answer w),
     send (upload_request w file) w).
Proof.
  unfold api.uploadPdf, fetch, json, settle, next_answer, send,
    upload_request.
  run. cbn.
  destruct (network (browser w) (length (sent (browser w)))) as [r|why];
    [|reflexivity].
  destruct (ok r); cbn; [|reflexivity].
  destruct (payload r); reflexivity.
Qed.

Lemma askQuestion_run (q : jsstring) (w : World) :
  api.askQuestion q w =
    (settle (lit "Question failed") (next_answer w),
     send (ask_request w q) w).
Proof.
  unfold api.askQuestion, fetch, json, settle, next_answer, send,
    ask_request.
  run. cbn.
  destruct (network (browser w) (length (sent (browser w)))) as [r|why];
    [|reflexivity].
  destruct (ok r); cbn; [|reflexivity].
  destruct (payload r); reflexivity.
Qed.

Lemma settle_not_ApiError (fallback : jsstring) (o : FetchOutcome)
    (e : JsError) :
  settle fallback o = Throw e → instanceof_ApiError e = false.
Proof.
  destruct o as [r|why]; cbn.
  - destruct (ok r); [destruct (payload r)|]; intros H; inversion H;
      reflexivity.
  - intros H; inversion H; reflexivity.
Qed.

(** ** The upload hook *)

Lemma uploadFile_run (file : File) (w : World) :
  useFileUpload.uploadFile file w =
    let s := fileUpload w in
    let w1 :=
      useFileUpload.set_state
        (UploadState.mk true (UploadState.uploadResult s) None) w in
    let w2 := send (upload_request w file) w1 in
    match settle (lit "Upload failed") (next_answer w) with
    | Normal r =>
        (Normal r,
         useFileUpload.set_state (UploadState.mk false r None) w2)
    | Throw e =>
        (Throw e,
         useFileUpload.set_state
           (UploadState.mk false (UploadState.uploadResult s)
              (Some (display (lit "Upload failed") e))) w2)
    end.
Proof.
  unfold useFileUpload.uploadFile, useFileUpload.setUploading,
    useFileUpload.setError, useFileUpload.setUploadResult.
  run. cbn -[api.uploadPdf settle].
  rewrite uploadPdf_run.
  unfold next_answer, send, upload_request, API_BASE_URL, display.
  cbn -[settle].
  destruct (settle _ _); reflexivity.
Qed.

(** ** The question hook *)

Lemma askQuestion_hook_run (q : jsstring) (w : World) :
  useQuestions.askQuestion q w =
    let s := questions w in
    let w1 :=
      useQuestions.set_state
        (QuestionsState.mk true (QuestionsState.history s) None) w in
    let w2 := send (ask_request w q) w1 in
    match settle (lit "Question failed") (next_answer w) with
    | Normal v =>
        if nullish v then
          (Throw (TypeError
                    (lit "Cannot read properties of null or undefined")),
           useQuestions.set_state
             (QuestionsState.mk false (QuestionsState.history s)
                (Some (lit "Question failed"))) (tick 1 w2))
        else
          (Normal v,
           useQuestions.set_state
             (QuestionsState.mk false
                (new_entry w q v :: QuestionsState.history s) None)
             (tick 2 w2))
    | Throw e =>
        (Throw e,
         useQuestions.set_state
           (QuestionsState.mk false (QuestionsState.history s)
              (Some (display (lit "Question failed") e))) w2)
    end.
Proof.
  unfold useQuestions.askQuestion, useQuestions.setLoading,
    useQuestions.setError, useQuestions.setHistory, new_Date, Date_now,
    get_prop.
  run. cbn -[api.askQuestion settle].
  rewrite askQuestion_run.
  unfold next_answer, send, ask_request, API_BASE_URL, display, tick,
    new_entry, prop.
  cbn -[settle].
  destruct (settle _ _) as [v|e]; [|reflexivity].
  destruct v; reflexivity.
Qed.

(** ** The upload widget *)

Lemma handleFileSelect_run (file : File) (w : World) :
  FileUpload.handleFileSelect Home.handleUploadSuccess file w =
    match useFileUpload.uploadFile file w with
    | (Normal r, w') => (Normal tt, Home.set_state (HomeState.mk true r) w')
    | (Throw _, w') => (Normal tt, w')
    end.
Proof.
  unfold FileUpload.handleFileSelect, Home.handleUploadSuccess,
    Home.setUploadResult, Home.setHasUploadedFile.
  run.
  destruct (useFileUpload.uploadFile file w) as [[r|e] w']; reflexivity.
Qed.

Lemma handleFileSelect_uploading (file : File) (w : World) :
  UploadState.uploading
    (fileUpload
       (exec (FileUpload.handleFileSelect Home.handleUploadSuccess file) w))
  = false.
Proof.
  unfold exec. rewrite handleFileSelect_run, uploadFile_run. cbn -[settle].
  destruct (settle _ _); reflexivity.
Qed.

Lemma upload_step_idle (a : UploadAction) (w : World) :
  UploadState.uploading (fileUpload w) = false →
  UploadState.uploading (fileUpload (upload_step a w)) = false.
Proof.
  intros Hidle. destruct a as [file| |files|files]; unfold upload_step.
  - unfold exec. rewrite uploadFile_run. cbn -[settle].
    destruct (settle _ _); reflexivity.
  - exact Hidle.
  - unfold FileUpload.handleDrop.
    destruct (find _ files) as [pdfFile|].
    + apply (handleFileSelect_uploading pdfFile).
    + exact Hidle.
  - unfold FileUpload.handleFileInput.
    destruct files as [[|file rest]|]; cbn [head]; try exact Hidle.
    apply handleFileSelect_uploading.
Qed.

Lemma upload_session_idle (acts : list UploadAction) (w : World) :
  UploadState.uploading (fileUpload w) = false →
  UploadState.uploading (fileUpload (upload_session acts w)) = false.
Proof.
  revert w. induction acts as [|a acts IH]; intros w Hidle; [exact Hidle|].
  cbn. apply IH, upload_step_idle, Hidle.
Qed.

(** *** The call while it is in flight *)

Lemma uploadFile_suspends (file : File) (w : World) :
  ∃ resume,
    InFlight.uploadFile file w =
      Awaiting (length (sent (browser w)))
        (send (upload_request w file)
           (useFileUpload.set_state
              (UploadState.mk true (UploadState.uploadResult (fileUpload w))
                 None) w))
        resume
    ∧ ∀ o w', resume o w' = uploadFile_resumed o w'.
Proof.
  unfold InFlight.uploadFile, InFlight.uploadPdf. run_task.
  eexists. split; [reflexivity|].
  intros o w'. unfold uploadFile_resumed, settle, json.
  destruct o as [r|why]; [|reflexivity]. cbn.
  destruct (ok r); cbn; [|reflexivity].
  destruct (payload r); reflexivity.
Qed.

Lemma uploadFile_completes (file : File) (w : World) :
  complete (InFlight.uploadFile file w) = useFileUpload.uploadFile file w.
Proof.
  destruct (uploadFile_suspends file w) as (resume & -> & Hres).
  cbn [complete]. rewrite Hres, uploadFile_run.
  unfold uploadFile_resumed. cbn -[settle].
  change (network (browser w) (length (sent (browser w))))
    with (next_answer w).
  destruct (settle _ _); reflexivity.
Qed.

Lemma uploadFile_resumed_done (o : FetchOutcome) (w : World) :
  ∃ c w', uploadFile_resumed o w = Done c w'
          ∧ UploadState.uploading (fileUpload w') = false.
Proof.
  unfold uploadFile_resumed.
  destruct (settle _ _); eexists _, _; split; reflexivity.
Qed.

Lemma flight_step_inv (ev : FlightEvent) (s : World * Flights) :
  flights_inv s → flights_inv (flight_step ev s).
Proof.
  destruct s as [w calls]. intros [Hcalls Hidle]. cbn [fst snd] in *.
  destruct ev as [file|i|]; cbn [flight_step].
  - destruct (uploadFile_suspends file w) as (resume & -> & Hres).
    cbn [land]. split; cbn [fst snd].
    + apply Forall_app. split; [exact Hcalls|].
      constructor; [exact Hres|constructor].
    + intros H. destruct calls; discriminate.
  - destruct (calls !! i) as [[n resume]|] eqn:Hi; [|split; assumption].
    assert (Hres : ∀ o w, resume o w = uploadFile_resumed o w).
    { rewrite Forall_forall in Hcalls.
      apply (Hcalls (n, resume)). eapply list_elem_of_lookup_2, Hi. }
    rewrite Hres.
    destruct (uploadFile_resumed_done (network (browser w) n) w)
      as (c & w' & -> & Hfalse).
    cbn [land]. split; cbn [fst snd]; [|intros _; exact Hfalse].
    rewrite Forall_forall in *. intros call Hin.
    apply Hcalls. eapply list_elem_of_delete_inv, Hin.
  - split; cbn [fst snd]; [exact Hcalls|]. intros H. exact (Hidle H).
Qed.

Lemma flight_session_inv (evs : list FlightEvent) (s : World * Flights) :
  flights_inv s → flights_inv (flight_session evs s).
Proof.
  revert s. induction evs as [|ev evs IH]; intros s Hs; [exact Hs|].
  cbn [flight_session fold_left]. apply IH, flight_step_inv, Hs.
Qed.




(** A call of the question hook that resolves has prepended one entry. *)
Lemma askQuestion_resolved (q : jsstring) (w : World) :
  resolved (result (useQuestions.askQuestion q) w) = true →
  ∃ v, result (useQuestions.askQuestion q) w = Normal v
       ∧ questions (exec (useQuestions.askQuestion q) w) =
           QuestionsState.mk false
             (new_entry w q v :: QuestionsState.history (questions w)) None.
Proof.
  unfold result, exec. rewrite askQuestion_hook_run. cbn -[settle].
  destruct (settle _ _) as [v|e]; [|discriminate].
  destruct (nullish v); [discriminate|].
  intros _. exists v. split; reflexivity.
Qed.

(** A call of the question hook that rejects has only stored the
    fallback message. *)
Lemma askQuestion_rejected (q : jsstring) (w : World) (e : JsError) :
  result (useQuestions.askQuestion q) w = Throw e →
  questions (exec (useQuestions.askQuestion q) w) =
    QuestionsState.mk false (QuestionsState.history (questions w))
      (Some (lit "Question failed")).
Proof.
  unfold result, exec. rewrite askQuestion_hook_run. cbn -[settle].
  destruct (settle _ _) as [v|e'] eqn:Hs.
  - destruct (nullish v); [|discriminate]. reflexivity.
  - intros _. cbn. unfold display.
    rewrite (settle_not_ApiError _ _ _ Hs). reflexivity.
Qed.

Lemma new_entry_question (w : World) (q : jsstring) (v : JsValue) :
  QuestionHistory.question (new_entry w q v) = q.
Proof. reflexivity. Qed.

Lemma ask_all_history (qs : list jsstring) (w : World) :
  fst (ask_all qs w) = true →
  ∃ entries,
    QuestionsState.history (questions (snd (ask_all qs w))) =
      entries ++ QuestionsState.history (questions w)
    ∧ map QuestionHistory.question entries = rev qs.
Proof.
  revert w. induction qs as [|q qs IH]; intros w Hok.
  - exists []. split; reflexivity.
  - cbn [ask_all] in *.
    destruct (useQuestions.askQuestion q w) as [c w'] eqn:Hq.
    destruct (ask_all qs w') as [b w''] eqn:Hrest.
    cbn [fst snd] in *.
    apply andb_true_iff in Hok as [Hc Hb].
    destruct (IH w') as (entries & Hh & Hm); [rewrite Hrest; exact Hb|].
    rewrite Hrest in Hh. cbn [snd] in Hh.
    destruct (askQuestion_resolved q w) as (v & _ & Hw').
    { unfold result. rewrite Hq. exact Hc. }
    unfold exec in Hw'. rewrite Hq in Hw'. cbn [snd] in Hw'.
    exists (entries ++ [new_entry w q v]). split.
    + rewrite Hh, Hw'. cbn. rewrite <- app_assoc. reflexivity.
    + rewrite map_app, Hm. reflexivity.
Qed.

(** C3: every successful call of askQuestion prepends one new entry, so
    the history is ordered newest first: after the questions [qs] were
    asked one after the other, all successfully, the history is the old
    one with one entry per question in front of it, the last question
    first; after Q1 then Q2, history[0] holds Q2 and history[1] holds
    Q1. *)
Theorem C3_history_newest_first (qs : list jsstring) (w : World) :
  fst (ask_all qs w) = true →
  let h := QuestionsState.history (questions (snd (ask_all qs w))) in
  (∃ entries,
     h = entries ++ QuestionsState.history (questions w)
     ∧ length entries = length qs
     ∧ map QuestionHistory.question entries = rev qs)
  ∧ (∀ q1 q2, qs = [q1; q2] →
       QuestionHistory.question <$> h !! 0%nat = Some q2
       ∧ QuestionHistory.question <$> h !! 1%nat = Some q1).
Proof.
  intros Hok h.
  destruct (ask_all_history qs w Hok) as (entries & Hh & Hm).
  fold h in Hh. split.
  - exists entries. split; [exact Hh|]. split; [|exact Hm].
    rewrite <- (length_map QuestionHistory.question), Hm.
    apply length_rev.
  - intros q1 q2 ->. rewrite Hh.
    destruct entries as [|e2 [|e1 [|e0 rest]]]; try discriminate.
    cbn in Hm. injection Hm as H2 H1. cbn. rewrite H2, H1.
    split; reflexivity.
Qed.

Lemma C3_witness :
  let w := boot None (always (mkResponse 200 (Json answer_body))) ticking in
  let h :=
    QuestionsState.history
      (questions (snd (ask_all [lit "Q1"; lit "Q2"] w))) in
  fst (ask_all [lit "Q1"; lit "Q2"] w) = true
  ∧ QuestionHistory.question <$> h !! 0%nat = Some (lit "Q2")
  ∧ QuestionHistory.question <$> h !! 1%nat = Some (lit "Q1").
Proof.
  intros w h.
  assert (Hok : fst (ask_all [lit "Q1"; lit "Q2"] w) = true)
    by (vm_compute; reflexivity).
  split; [exact Hok|].
  exact (proj2 (C3_history_newest_first [lit "Q1"; lit "Q2"] w Hok)
           (lit "Q1") (lit "Q2") eq_refl).
Defined.

(** ** The question form *)

Lemma handleSubmit_run (disabled : bool) (w : World) :
  QuestionInterface.handleSubmit disabled w =
    let w0 := exec preventDefault w in
    if negb (truthy (trim (question w)))
       || QuestionsState.loading (questions w) || disabled
    then (Normal tt, w0)
    else
      match useQuestions.askQuestion (trim (question w)) w0 with
      | (Normal _, w') => (Normal tt, typed [] w')
      | (Throw _, w') => (Normal tt, w')
      end.
Proof.
  unfold QuestionInterface.handleSubmit, QuestionInterface.setQuestion,
    typed, exec, preventDefault.
  run. cbn -[trim useQuestions.askQuestion].
  destruct (negb (truthy (trim (question w)))
            || QuestionsState.loading (questions w) || disabled);
    [reflexivity|].
  destruct (useQuestions.askQuestion _ _) as [[v|e] w']; reflexivity.
Qed.

Lemma handleSubmit_exec (disabled : bool) (w : World) :
  exec (QuestionInterface.handleSubmit disabled) w =
    if negb (truthy (trim (question w)))
       || QuestionsState.loading (questions w) || disabled
    then exec preventDefault w
    else
      match useQuestions.askQuestion (trim (question w))
              (exec preventDefault w) with
      | (Normal _, w') => typed [] w'
      | (Throw _, w') => w'
      end.
Proof.
  unfold exec at 1. rewrite handleSubmit_run. cbv zeta.
  destruct (negb (truthy (trim (question w)))
            || QuestionsState.loading (questions w) || disabled);
    [reflexivity|].
  destruct (useQuestions.askQuestion _ _) as [[v|e] w']; reflexivity.
Qed.

Lemma truthy_nonempty (s : jsstring) : s ≠ [] → truthy s = true.
Proof. destruct s; [congruence|reflexivity]. Qed.

(** C4: the guard of the submit handler.  While a request is in flight,
    while the form is disabled, or when the input is blank after
    trimming, a submit only marks the event as handled: no request is
    sent and the state of the question hook is unchanged.  When none of
    the three holds and the call of the hook resolves, one request was
    sent and exactly one entry, for the trimmed input, is in front of the
    old history. *)
Theorem C4_submit_guard (disabled : bool) (w : World) :
  let w' := exec (QuestionInterface.handleSubmit disabled) w in
  (QuestionsState.loading (questions w) = true ∨ disabled = true
     ∨ trim (question w) = [] →
   w' = exec preventDefault w
   ∧ sent (browser w') = sent (browser w)
   ∧ questions w' = questions w)
  ∧ (QuestionsState.loading (questions w) = false → disabled = false →
     trim (question w) ≠ [] →
     resolved (result (useQuestions.askQuestion (trim (question w)))
                 (exec preventDefault w)) = true →
     ∃ e, QuestionsState.history (questions w') =
            e :: QuestionsState.history (questions w)
          ∧ QuestionHistory.question e = trim (question w)
          ∧ sent (browser w') =
              sent (browser w) ++ [ask_request w (trim (question w))]).
Proof.
  intros w'. subst w'. rewrite handleSubmit_exec. split.
  - intros Hguard.
    assert (negb (truthy (trim (question w)))
            || QuestionsState.loading (questions w) || disabled = true)
      as ->.
    { destruct Hguard as [-> | [-> | ->]].
      - apply orb_true_iff. left. apply orb_true_r.
      - apply orb_true_r.
      - reflexivity. }
    repeat split; reflexivity.
  - intros Hl Hd Hq Hok. rewrite Hl, Hd, (truthy_nonempty _ Hq).
    cbn [negb orb].
    assert (Hh : questions (exec preventDefault w) = questions w)
      by reflexivity.
    assert (Hs : sent (browser (exec preventDefault w)) = sent (browser w))
      by reflexivity.
    assert (Hr : ask_request (exec preventDefault w) (trim (question w))
                 = ask_request w (trim (question w))) by reflexivity.
    remember (exec preventDefault w) as w0 eqn:Hw0. clear Hw0.
    destruct (askQuestion_resolved _ _ Hok) as (v & Hv & Hst).
    assert (Hsent :
      sent (browser (exec (useQuestions.askQuestion (trim (question w))) w0))
      = sent (browser w0) ++ [ask_request w0 (trim (question w))]).
    { unfold exec. rewrite askQuestion_hook_run. cbn -[settle].
      destruct (settle _ _) as [v'|e']; [destruct (nullish v')|];
        reflexivity. }
    unfold result, exec in Hv, Hst, Hsent.
    destruct (useQuestions.askQuestion (trim (question w)) w0)
      as [c w1].
    cbn [fst snd] in *. subst c.
    exists (new_entry w0 (trim (question w)) v).
    unfold typed, exec, QuestionInterface.setQuestion, modify.
    cbn [snd questions browser].
    rewrite Hst, Hsent, Hh, Hs, Hr. repeat split.
Qed.

Lemma C4_witness :
  let ready :=
    boot None (always (mkResponse 200 (Json answer_body))) ticking in
  let busy := asking (typed (lit "What is X?") ready) in
  let filled := typed (lit "  What is X?  ") ready in
  (QuestionsState.loading (questions busy) = true
   ∧ questions (exec (QuestionInterface.handleSubmit false) busy)
     = questions busy)
  ∧ (trim (question filled) = lit "What is X?"
     ∧ ∃ e, QuestionsState.history
              (questions (exec (QuestionInterface.handleSubmit false) filled))
            = [e]
            ∧ QuestionHistory.question e = lit "What is X?").
Proof.
  intros ready busy filled. split.
  - split; [reflexivity|].
    apply (proj1 (C4_submit_guard false busy)). left. reflexivity.
  - split; [vm_compute; reflexivity|].
    destruct (proj2 (C4_submit_guard false filled)) as (e & He & Hq & _).
    + reflexivity.
    + reflexivity.
    + vm_compute. discriminate.
    + vm_compute. reflexivity.
    + exists e. split; [exact He|].
      rewrite Hq. vm_compute. reflexivity.
Defined.

(** ** Failures *)

Lemma askQuestion_api_throws (q : jsstring) (w : World) (e : JsError) :
  result (api.askQuestion q) (ask_called w) = Throw e →
  result (useQuestions.askQuestion q) w = Throw e.
Proof.
  unfold result. rewrite askQuestion_run, askQuestion_hook_run.
  cbn -[settle].
  change (next_answer (ask_called w)) with (next_answer w).
  intros ->. reflexivity.
Qed.

Lemma askQuestion_throws_state (q : jsstring) (w : World) (e : JsError) :
  result (useQuestions.askQuestion q) w = Throw e →
  questions (exec (useQuestions.askQuestion q) w) =
    QuestionsState.mk false (QuestionsState.history (questions w))
      (Some (display (lit "Question failed") e)).
Proof.
  unfold result, exec. rewrite askQuestion_hook_run. cbn -[settle].
  destruct (settle _ _) as [v|e'].
  - destruct (nullish v); [|discriminate].
    intros [= <-]. reflexivity.
  - intros [= <-]. reflexivity.
Qed.

(** C9: a failed call of askQuestion leaves the history as it was.  When
    the API client throws, the call of the hook throws the same error;
    and after any call of the hook that throws, the state of the hook is
    the old history, [loading] false and the display message of the
    error: no entry was added or removed, and nothing outside the hook
    and the request log changed. *)
Theorem C9_failed_ask_keeps_history (q : jsstring) (w : World)
    (e : JsError) :
  (result (api.askQuestion q) (ask_called w) = Throw e →
   result (useQuestions.askQuestion q) w = Throw e)
  ∧ (result (useQuestions.askQuestion q) w = Throw e →
     let w' := exec (useQuestions.askQuestion q) w in
     QuestionsState.history (questions w') =
       QuestionsState.history (questions w)
     ∧ questions w' =
         QuestionsState.mk false (QuestionsState.history (questions w))
           (Some (display (lit "Question failed") e))
     ∧ fileUpload w' = fileUpload w ∧ home w' = home w
     ∧ question w' = question w).
Proof.
  split; [apply askQuestion_api_throws|].
  intros Hthrow w'. subst w'.
  rewrite (askQuestion_throws_state q w e Hthrow).
  split; [reflexivity|]. split; [reflexivity|].
  unfold exec. rewrite askQuestion_hook_run. cbn -[settle].
  destruct (settle _ _) as [v|e']; [destruct (nullish v)|];
    repeat split; reflexivity.
Qed.

Lemma C9_witness :
  let w := exec (useQuestions.askQuestion (lit "Q1"))
             (boot None (ok_then_down answer_body) ticking) in
  let e := Error (lit "Question failed") in
  result (api.askQuestion (lit "Q2")) (ask_called w) = Throw e
  ∧ result (useQuestions.askQuestion (lit "Q2")) w = Throw e
  ∧ length (QuestionsState.history
              (questions (exec (useQuestions.askQuestion (lit "Q2")) w)))
    = 1%nat.
Proof.
  intros w e.
  assert (Hapi : result (api.askQuestion (lit "Q2")) (ask_called w) = Throw e)
    by (vm_compute; reflexivity).
  pose proof (C9_failed_ask_keeps_history (lit "Q2") w e) as [Hhook Hkeep].
  split; [exact Hapi|]. split; [exact (Hhook Hapi)|].
  destruct (Hkeep (Hhook Hapi)) as (Hh & _).
  rewrite Hh. vm_compute. reflexivity.
Defined.

Lemma uploadFile_rejected (file : File) (w : World) :
  resolved (result (useFileUpload.uploadFile file) w) = false →
  fileUpload (exec (useFileUpload.uploadFile file) w) =
    UploadState.mk false (UploadState.uploadResult (fileUpload w))
      (Some (lit "Upload failed")).
Proof.
  unfold result, exec. rewrite uploadFile_run. cbn -[settle].
  destruct (settle _ _) as [v|e] eqn:Hs; [discriminate|].
  intros _. cbn. unfold display.
  rewrite (settle_not_ApiError _ _ _ Hs). reflexivity.
Qed.

Lemma askQuestion_rejected_any (q : jsstring) (w : World) :
  resolved (result (useQuestions.askQuestion q) w) = false →
  questions (exec (useQuestions.askQuestion q) w) =
    QuestionsState.mk false (QuestionsState.history (questions w))
      (Some (lit "Question failed")).
Proof.
  intros Hr.
  destruct (result (useQuestions.askQuestion q) w) as [v|e] eqn:He;
    [discriminate|].
  exact (askQuestion_rejected q w e He).
Qed.

(** C10: the message a hook stores after a failed call does not depend
    on the failure.  The API client never throws an ApiError, whatever the
    status and the body of the response; so for any two failed uploads the
    stored error is the same constant, 'Upload failed', and for any two
    failed questions it is 'Question failed'. *)
Theorem C10_error_message_constant :
  (∀ file w e, result (api.uploadPdf file) w = Throw e →
               instanceof_ApiError e = false)
  ∧ (∀ q w e, result (api.askQuestion q) w = Throw e →
              instanceof_ApiError e = false)
  ∧ (∀ file1 w1 file2 w2,
       resolved (result (useFileUpload.uploadFile file1) w1) = false →
       resolved (result (useFileUpload.uploadFile file2) w2) = false →
       let error1 :=
         UploadState.error
           (fileUpload (exec (useFileUpload.uploadFile file1) w1)) in
       let error2 :=
         UploadState.error
           (fileUpload (exec (useFileUpload.uploadFile file2) w2)) in
       error1 = error2 ∧ error1 = Some (lit "Upload failed"))
  ∧ (∀ q1 w1 q2 w2,
       resolved (result (useQuestions.askQuestion q1) w1) = false →
       resolved (result (useQuestions.askQuestion q2) w2) = false →
       let error1 :=
         QuestionsState.error
           (questions (exec (useQuestions.askQuestion q1) w1)) in
       let error2 :=
         QuestionsState.error
           (questions (exec (useQuestions.askQuestion q2) w2)) in
       error1 = error2 ∧ error1 = Some (lit "Question failed")).
Proof.
  repeat split.
  - intros file w e. unfold result. rewrite uploadPdf_run.
    apply settle_not_ApiError.
  - intros q w e. unfold result. rewrite askQuestion_run.
    apply settle_not_ApiError.
  - rewrite (uploadFile_rejected file1 w1), (uploadFile_rejected file2 w2);
      auto.
  - rewrite (uploadFile_rejected file1 w1); auto.
  - rewrite (askQuestion_rejected_any q1 w1),
      (askQuestion_rejected_any q2 w2); auto.
  - rewrite (askQuestion_rejected_any q1 w1); auto.
Qed.

Lemma C10_witness :
  let w413 := boot None (always too_large) ticking in
  let w500 := boot None (always server_down) frozen in
  resolved (result (useFileUpload.uploadFile a_pdf) w413) = false
  ∧ resolved (result (useFileUpload.uploadFile notes_txt) w500) = false
  ∧ UploadState.error
      (fileUpload (exec (useFileUpload.uploadFile a_pdf) w413))
    = UploadState.error
        (fileUpload (exec (useFileUpload.uploadFile notes_txt) w500))
  ∧ resolved (result (useQuestions.askQuestion (lit "Q1")) w413) = false
  ∧ resolved (result (useQuestions.askQuestion (lit "Q2")) w500) = false
  ∧ QuestionsState.error
      (questions (exec (useQuestions.askQuestion (lit "Q1")) w413))
    = QuestionsState.error
        (questions (exec (useQuestions.askQuestion (lit "Q2")) w500)).
Proof.
  intros w413 w500.
  destruct C10_error_message_constant as (_ & _ & Hup & Hask).
  assert (H1 : resolved (result (useFileUpload.uploadFile a_pdf) w413)
               = false) by (vm_compute; reflexivity).
  assert (H2 : resolved (result (useFileUpload.uploadFile notes_txt) w500)
               = false) by (vm_compute; reflexivity).
  assert (H3 : resolved (result (useQuestions.askQuestion (lit "Q1")) w413)
               = false) by (vm_compute; reflexivity).
  assert (H4 : resolved (result (useQuestions.askQuestion (lit "Q2")) w500)
               = false) by (vm_compute; reflexivity).
  split; [exact H1|]. split; [exact H2|].
  split; [exact (proj1 (Hup a_pdf w413 notes_txt w500 H1 H2))|].
  split; [exact H3|]. split; [exact H4|].
  exact (proj1 (Hask (lit "Q1") w413 (lit "Q2") w500 H3 H4)).
Defined.

(** C1: what the code does with a 413 answer whose body carries the
    server's message 'File too large'.  The client throws a plain Error
    with the constant message 'Upload failed': the error is no ApiError,
    it carries no status, and the server's message is lost.  The hook
    then stores 'Upload failed', not the server's message; the result
    stays absent. *)
Theorem C1_upload_413_drops_server_message :
  let w := boot None (always too_large) ticking in
  next_answer w = Responded too_large
  ∧ status too_large = 413
  ∧ prop (VObj [(lit "detail", VStr (lit "File too large"))]) (lit "detail")
    = VStr (lit "File too large")
  ∧ result (api.uploadPdf a_pdf) w = Throw (Error (lit "Upload failed"))
  ∧ result (api.uploadPdf a_pdf) w
    ≠ Throw (ApiError 413 (lit "File too large"))
  ∧ fileUpload (exec (useFileUpload.uploadFile a_pdf) w)
    = UploadState.mk false VNull (Some (lit "Upload failed"))
  ∧ UploadState.error (fileUpload (exec (useFileUpload.uploadFile a_pdf) w))
    ≠ Some (lit "File too large").
Proof.
  intros w. repeat split; try (vm_compute; reflexivity);
    vm_compute; discriminate.
Qed.

(** ** Reset and clear *)

(** C5, as stated, fails on the question hook: after an answered question
    and a failed one, clearing the history leaves the stored error
    'Question failed' in place, so the state of the hook is not the
    initial one. *)
Lemma C5_counterexample :
  questions after_failed_question =
    QuestionsState.mk false
      [new_entry (boot None (ok_then_down answer_body) ticking) (lit "Q1")
         answer_body]
      (Some (lit "Question failed"))
  ∧ questions (exec useQuestions.clearHistory after_failed_question) =
      QuestionsState.mk false [] (Some (lit "Question failed"))
  ∧ questions (exec useQuestions.clearHistory after_failed_question)
    ≠ QuestionsState.initial.
Proof.
  repeat split; try (vm_compute; reflexivity).
  vm_compute. discriminate.
Qed.

(** C5, amended: [reset] of the upload hook clears the result and the
    error together and leaves [uploading] as it is; [clearHistory] of the
    question hook empties the history unconditionally and leaves
    [loading] and the error as they are; neither touches anything else.
    So [reset] gives the initial state of the upload hook exactly when no
    upload is marked in flight, and [clearHistory] gives the initial
    state of the question hook exactly when no request is marked in
    flight and no error is stored. *)
Theorem C5_reset_and_clear (w : World) :
  exec useFileUpload.reset w =
    useFileUpload.set_state
      (UploadState.mk (UploadState.uploading (fileUpload w)) VNull None) w
  ∧ exec useQuestions.clearHistory w =
      useQuestions.set_state
        (QuestionsState.mk (QuestionsState.loading (questions w)) []
           (QuestionsState.error (questions w))) w
  ∧ (fileUpload (exec useFileUpload.reset w) = UploadState.initial
     ↔ UploadState.uploading (fileUpload w) = false)
  ∧ (questions (exec useQuestions.clearHistory w) = QuestionsState.initial
     ↔ QuestionsState.loading (questions w) = false
       ∧ QuestionsState.error (questions w) = None).
Proof.
  split; [reflexivity|]. split; [reflexivity|].
  unfold UploadState.initial, QuestionsState.initial. cbn. split; split.
  - intros H. injection H as Hu. exact Hu.
  - intros Hu. vm_compute. vm_compute in Hu. rewrite Hu. reflexivity.
  - intros H. injection H as Hl He. split; assumption.
  - intros [Hl He]. vm_compute. vm_compute in Hl, He. rewrite Hl, He.
    reflexivity.
Qed.

(** ** The entries of the history *)

Lemma lit_inj (s1 s2 : string) : lit s1 = lit s2 → s1 = s2.
Proof.
  unfold lit. intros H.
  rewrite <- (string_of_list_ascii_of_string s1),
          <- (string_of_list_ascii_of_string s2).
  f_equal.
  revert H. generalize (list_ascii_of_string s1) (list_ascii_of_string s2).
  induction l as [|a l IH]; intros [|a' l'] H; try discriminate;
    [reflexivity|].
  cbn in H. injection H as Ha Hl. f_equal; [|apply IH, Hl].
  rewrite <- (ascii_N_embedding a), <- (ascii_N_embedding a'), Ha.
  reflexivity.
Qed.

Lemma to_int_proper (n : Z) :
  Z.to_int n ≠ Decimal.Pos Decimal.Nil ∧ Z.to_int n ≠ Decimal.Neg Decimal.Nil.
Proof.
  destruct n as [|p|p]; cbn; split; try discriminate;
    intros [= H]; exact (DecimalPos.Unsigned.to_uint_nonnil p H).
Qed.

Lemma toString_inj (n m : Z) : toString n = toString m → n = m.
Proof.
  unfold toString. intros H. apply lit_inj in H.
  apply DecimalZ.to_int_inj.
  destruct (to_int_proper n) as [Hn1 Hn2].
  destruct (to_int_proper m) as [Hm1 Hm2].
  pose proof (NilZero.isi (Z.to_int n) Hn1 Hn2) as Hn.
  pose proof (NilZero.isi (Z.to_int m) Hm1 Hm2) as Hm.
  rewrite H in Hn. rewrite Hn in Hm. injection Hm as Hm. exact Hm.
Qed.

Lemma askQuestion_change (q : jsstring) (w : World) :
  history_change w (exec (useQuestions.askQuestion q) w).
Proof.
  unfold history_change, exec. rewrite askQuestion_hook_run.
  cbn -[settle].
  destruct (settle _ _) as [v|e]; [destruct (nullish v)|]; cbn.
  - split; [reflexivity|]. split; [lia|]. left. reflexivity.
  - split; [reflexivity|]. split; [lia|]. right. right.
    exists (new_entry w q v). split; [reflexivity|].
    split; [reflexivity|lia].
  - split; [reflexivity|]. split; [lia|]. left. reflexivity.
Qed.

Lemma history_change_refl (w w' : World) :
  questions w' = questions w →
  clock (browser w') = clock (browser w) →
  clock_reads (browser w') = clock_reads (browser w) →
  history_change w w'.
Proof.
  intros Hq Hc Hr. unfold history_change. rewrite Hq, Hc, Hr.
  split; [reflexivity|]. split; [lia|]. left. reflexivity.
Qed.

Lemma history_change_ext (w1 w1' w2 w2' : World) :
  questions w1 = questions w2 →
  clock (browser w1) = clock (browser w2) →
  clock_reads (browser w1) = clock_reads (browser w2) →
  questions w1' = questions w2' →
  clock (browser w1') = clock (browser w2') →
  clock_reads (browser w1') = clock_reads (browser w2') →
  history_change w1 w1' → history_change w2 w2'.
Proof.
  unfold history_change. intros -> -> -> -> -> -> H. exact H.
Qed.

Lemma question_step_change (a : QuestionAction) (w : World) :
  history_change w (question_step a w).
Proof.
  destruct a as [q| |disabled|s]; unfold question_step.
  - apply askQuestion_change.
  - unfold history_change. cbn.
    split; [reflexivity|]. split; [lia|]. right. left. reflexivity.
  - rewrite handleSubmit_exec.
    destruct (negb (truthy (trim (question w)))
              || QuestionsState.loading (questions w) || disabled).
    + apply history_change_refl; reflexivity.
    + pose proof (askQuestion_change (trim (question w))
                    (exec preventDefault w)) as H.
      unfold exec at 2 in H.
      destruct (useQuestions.askQuestion _ _) as [[v|e] w'];
        cbn [snd] in H;
        refine (history_change_ext _ _ _ _ _ _ _ _ _ _ H); reflexivity.
  - apply history_change_refl; reflexivity.
Qed.

Lemma ids_step (w w' : World) (ks : list nat) :
  history_change w w' → ids_from_readings w ks →
  ∃ ks', ids_from_readings w' ks'.
Proof.
  intros (Hc & Hr & Hh) (Hids & Hdec & Hlt).
  unfold ids_from_readings, ids. rewrite Hc.
  destruct Hh as [Hh | [Hh | (e & Hh & He & Hlt')]]; rewrite Hh.
  - exists ks. split; [exact Hids|]. split; [exact Hdec|].
    eapply Forall_impl; [exact Hlt|]. cbn. intros k Hk. lia.
  - exists []. repeat split. constructor.
  - exists (clock_reads (browser w) :: ks). cbn. split; [|split].
    + rewrite He. f_equal. exact Hids.
    + split; assumption.
    + constructor; [exact Hlt'|].
      eapply Forall_impl; [exact Hlt|]. cbn. intros k Hk. lia.
Qed.

Lemma ids_session (acts : list QuestionAction) (w : World) (ks : list nat) :
  ids_from_readings w ks →
  ∃ ks', ids_from_readings (question_session acts w) ks'
         ∧ clock (browser (question_session acts w)) = clock (browser w).
Proof.
  revert w ks. induction acts as [|a acts IH]; intros w ks Hinv.
  - exists ks. split; [exact Hinv|reflexivity].
  - cbn [question_session fold_left].
    pose proof (question_step_change a w) as Hch.
    destruct (ids_step _ _ _ Hch Hinv) as (ks1 & Hinv1).
    destruct (IH _ _ Hinv1) as (ks' & Hinv' & Hclk).
    exists ks'. split; [exact Hinv'|].
    unfold question_session in Hclk. rewrite Hclk. apply Hch.
Qed.

Lemma decreasing_NoDup (ks : list nat) : decreasing ks → NoDup ks.
Proof.
  induction ks as [|k ks IH]; intros Hdec; [constructor|].
  destruct Hdec as [Hlt Hdec]. constructor; [|apply IH, Hdec].
  intros Hin. rewrite Forall_forall in Hlt. specialize (Hlt k Hin). lia.
Qed.

Lemma NoDup_map_inj {A B} (f : A → B) (l : list A) :
  (∀ x y, f x = f y → x = y) → NoDup l → NoDup (map f l).
Proof.
  intros Hinj. induction 1 as [|x l Hx Hl IH]; cbn; constructor;
    [|exact IH].
  intros Hin. apply Hx.
  apply list_elem_of_In in Hin. apply in_map_iff in Hin as (y & Hy & Hin).
  apply Hinj in Hy. subst y. apply list_elem_of_In, Hin.
Qed.

Lemma NoDup_map_back {A B} (f : A → B) (l : list A) :
  NoDup (map f l) → NoDup l.
Proof.
  induction l as [|x l IH]; cbn; intros H; [constructor|].
  apply NoDup_cons in H as [Hx Hl]. constructor; [|apply IH, Hl].
  intros Hin. apply Hx. apply list_elem_of_In, in_map, list_elem_of_In, Hin.
Qed.




(** ** The operations of the API client *)

Lemma api_object_lookup (name : string) :
  is_Some (api_object !! name)
  ↔ name = "uploadPdf"%string ∨ name = "askQuestion"%string.
Proof.
  unfold api_object. split.
  - intros Hsome.
    destruct (decide (name = "uploadPdf"%string)) as [->|Hn1]; [by left|].
    destruct (decide (name = "askQuestion"%string)) as [->|Hn2]; [by right|].
    rewrite lookup_insert_ne in Hsome by congruence.
    rewrite lookup_singleton_ne in Hsome by congruence.
    by destruct Hsome.
  - intros [-> | ->].
    + rewrite lookup_insert_eq. by eexists.
    + rewrite lookup_insert_ne by discriminate.
      rewrite lookup_singleton_eq. by eexists.
Qed.

(** C7, as stated, fails: the [api] object has two operations, not four.
    There are no four distinct property names that hold an operation, and
    in particular nothing that would check the health of the service or
    reset it. *)
Lemma C7_counterexample :
  size api_object = 2%nat
  ∧ ¬ ∃ a b c d : string,
        NoDup [a; b; c; d]
        ∧ Forall (fun name => is_Some (api_object !! name)) [a; b; c; d].
Proof.
  split; [vm_compute; reflexivity|].
  intros (a & b & c & d & Hnd & Hall).
  apply Forall_cons in Hall as [Ia Hall].
  apply Forall_cons in Hall as [Ib Hall].
  apply Forall_cons in Hall as [Ic Hall].
  apply Forall_cons in Hall as [Id _].
  apply api_object_lookup in Ia, Ib, Ic, Id.
  apply NoDup_cons in Hnd as [Ha Hnd]. apply NoDup_cons in Hnd as [Hb Hnd].
  apply NoDup_cons in Hnd as [Hc _].
  destruct Ia as [-> | ->], Ib as [-> | ->], Ic as [-> | ->],
    Id as [-> | ->]; set_solver.
Qed.

(** C7, amended: the API client provides two operations, uploadPdf(file)
    and askQuestion(text).  Each issues exactly one HTTP request, a POST
    to the configured base URL followed by the path of the operation,
    and resolves with the parsed body of a response whose status is in
    200-299. *)
Theorem C7_api_operations :
  (∀ name : string,
     is_Some (api_object !! name)
     ↔ name = "uploadPdf"%string ∨ name = "askQuestion"%string)
  ∧ api_object !! "uploadPdf"%string = Some (OnFile api.uploadPdf)
  ∧ api_object !! "askQuestion"%string = Some (OnText api.askQuestion)
  ∧ (∀ file w,
       sent (browser (exec (api.uploadPdf file) w))
       = sent (browser w) ++ [upload_request w file]
       ∧ url (upload_request w file) = API_BASE_URL w ++ lit "/upload-pdf"
       ∧ method (upload_request w file) = lit "POST")
  ∧ (∀ q w,
       sent (browser (exec (api.askQuestion q) w))
       = sent (browser w) ++ [ask_request w q]
       ∧ url (ask_request w q) = API_BASE_URL w ++ lit "/ask-question"
       ∧ method (ask_request w q) = lit "POST")
  ∧ (∀ file q w r v,
       next_answer w = Responded r → ok r = true → payload r = Json v →
       result (api.uploadPdf file) w = Normal v
       ∧ result (api.askQuestion q) w = Normal v).
Proof.
  split; [exact api_object_lookup|].
  split; [reflexivity|]. split; [reflexivity|].
  split; [|split].
  - intros file w. unfold exec. rewrite uploadPdf_run.
    repeat split; reflexivity.
  - intros q w. unfold exec. rewrite askQuestion_run.
    repeat split; reflexivity.
  - intros file q w r v Hr Hok Hv. unfold result.
    rewrite uploadPdf_run, askQuestion_run, Hr. cbn.
    rewrite Hok, Hv. split; reflexivity.
Qed.

Lemma C7_witness :
  let w := boot None (always (mkResponse 200 (Json upload_body))) ticking in
  next_answer w = Responded (mkResponse 200 (Json upload_body))
  ∧ result (api.uploadPdf a_pdf) w = Normal upload_body.
Proof.
  intros w. split; [reflexivity|].
  exact (proj1
           (proj2 (proj2 (proj2 (proj2 (proj2 C7_api_operations))))
              a_pdf (lit "Q1") w (mkResponse 200 (Json upload_body))
              upload_body eq_refl eq_refl eq_refl)).
Defined.

(** ** What the upload widget sends *)

Lemma handleFileSelect_sent (file : File) (w : World) :
  sent (browser
          (exec (FileUpload.handleFileSelect Home.handleUploadSuccess file) w))
  = sent (browser w) ++ [upload_request w file].
Proof.
  unfold exec. rewrite handleFileSelect_run, uploadFile_run. cbn -[settle].
  destruct (settle _ _); reflexivity.
Qed.

Lemma dropped_pdf_first (files : list File) :
  match dropped_pdf files with
  | Some f =>
      file_type f = lit "application/pdf"
      ∧ ∃ pre post,
          files = pre ++ f :: post
          ∧ Forall (fun g => file_type g ≠ lit "application/pdf") pre
  | None => Forall (fun g => file_type g ≠ lit "application/pdf") files
  end.
Proof.
  unfold dropped_pdf. induction files as [|g files IH]; cbn [find].
  - constructor.
  - destruct (bool_decide_reflect (file_type g = lit "application/pdf"))
      as [Hg|Hg].
    + split; [exact Hg|]. exists [], files. split; [reflexivity|constructor].
    + destruct (find _ files) as [f|].
      * destruct IH as (Hf & pre & post & -> & Hpre).
        split; [exact Hf|]. exists (g :: pre), post.
        split; [reflexivity|]. constructor; assumption.
      * constructor; assumption.
Qed.

(** C8, as stated, fails on the file picker: [handleFileInput] uploads
    the first selected file without looking at its MIME type.  A
    text/plain file chosen in the picker is sent to the service, while
    the same file dropped on the widget is not. *)
Lemma C8_counterexample :
  file_type notes_txt ≠ lit "application/pdf"
  ∧ sent (browser
            (exec (FileUpload.handleFileInput Home.handleUploadSuccess
                     (Some [notes_txt])) fresh_page))
    = [upload_request fresh_page notes_txt]
  ∧ sent (browser
            (exec (FileUpload.handleDrop Home.handleUploadSuccess
                     [notes_txt]) fresh_page))
    = [].
Proof.
  split; [vm_compute; discriminate|].
  split; vm_compute; reflexivity.
Qed.

(** C8, amended: a drop triggers an upload only for a dropped file whose
    MIME type is application/pdf, the first such file among those
    dropped, and triggers none when no dropped file has that type.  The
    file picker uploads the first selected file whatever its MIME type,
    and nothing when no file is selected. *)
Theorem C8_upload_triggers :
  (∀ (files : list File) (w : World),
     let w' :=
       exec (FileUpload.handleDrop Home.handleUploadSuccess files) w in
     match dropped_pdf files with
     | Some f =>
         file_type f = lit "application/pdf"
         ∧ (∃ pre post,
              files = pre ++ f :: post
              ∧ Forall (fun g => file_type g ≠ lit "application/pdf") pre)
         ∧ sent (browser w') = sent (browser w) ++ [upload_request w f]
     | None =>
         Forall (fun g => file_type g ≠ lit "application/pdf") files
         ∧ sent (browser w') = sent (browser w)
         ∧ fileUpload w' = fileUpload w
     end)
  ∧ (∀ (files : option (list File)) (w : World),
       let w' :=
         exec (FileUpload.handleFileInput Home.handleUploadSuccess files)
              w in
       match files with
       | Some (f :: _) =>
           sent (browser w') = sent (browser w) ++ [upload_request w f]
       | Some [] | None => w' = w
       end).
Proof.
  split.
  - intros files w w'. subst w'.
    pose proof (dropped_pdf_first files) as Hfirst.
    unfold FileUpload.handleDrop. fold (dropped_pdf files).
    destruct (dropped_pdf files) as [f|].
    + destruct Hfirst as [Hf Hpre]. split; [exact Hf|].
      split; [exact Hpre|].
      exact (handleFileSelect_sent f (exec preventDefault w)).
    + split; [exact Hfirst|]. split; reflexivity.
  - intros [[|f rest]|] w w'; subst w'; try reflexivity.
    unfold FileUpload.handleFileInput. cbn [head].
    apply handleFileSelect_sent.
Qed.


(** * Further properties of the code *)

(** ** The API client: how a call settles *)

Lemma settle_resolves (fallback : jsstring) (o : FetchOutcome) (v : JsValue) :
  settle fallback o = Normal v
  ↔ ∃ r, o = Responded r ∧ 200 <= status r <= 299 ∧ payload r = Json v.
Proof.
  unfold settle, ok. split.
  - destruct o as [r|why]; [|discriminate].
    destruct (200 <=? status r) eqn:H1; cbn [andb]; [|discriminate].
    destruct (status r <=? 299) eqn:H2; [|discriminate].
    destruct (payload r) as [v'|why] eqn:Hp; [|discriminate].
    intros [= ->]. exists r. repeat split; try lia. exact Hp.
  - intros (r & -> & [H1 H2] & Hp).
    apply Z.leb_le in H1, H2. rewrite H1, H2, Hp. reflexivity.
Qed.

Lemma settle_fallback (fallback : jsstring) (o : FetchOutcome) :
  settle fallback o = Throw (Error fallback)
  ↔ ∃ r, o = Responded r ∧ (status r < 200 ∨ 299 < status r).
Proof.
  unfold settle, ok. split.
  - destruct o as [r|why]; [|discriminate].
    destruct (200 <=? status r) eqn:H1; cbn [andb].
    + destruct (status r <=? 299) eqn:H2.
      * destruct (payload r); discriminate.
      * intros _. exists r. split; [reflexivity|]. right.
        apply Z.leb_gt, H2.
    + intros _. exists r. split; [reflexivity|]. left. apply Z.leb_gt, H1.
  - intros (r & -> & [H | H]).
    + apply Z.leb_gt in H. rewrite H. reflexivity.
    + apply Z.leb_gt in H. rewrite H, andb_false_r. reflexivity.
Qed.

(** X1: a call of the client resolves exactly when a response arrives
    whose status is in 200-299 and whose body parses; it then resolves
    with the parsed body. *)
Theorem api_resolves_iff (file : File) (q : jsstring) (w : World)
    (v : JsValue) :
  (result (api.uploadPdf file) w = Normal v
   ↔ ∃ r, next_answer w = Responded r ∧ 200 <= status r <= 299
          ∧ payload r = Json v)
  ∧ (result (api.askQuestion q) w = Normal v
     ↔ ∃ r, next_answer w = Responded r ∧ 200 <= status r <= 299
            ∧ payload r = Json v).
Proof.
  unfold result. rewrite uploadPdf_run, askQuestion_run. cbn [fst].
  split; apply settle_resolves.
Qed.

(** X2: a call of the client fails with the plain error of the operation
    ('Upload failed', 'Question failed') exactly when a response arrives
    whose status is below 200 or above 299. *)
Theorem api_status_error_iff (file : File) (q : jsstring) (w : World) :
  (result (api.uploadPdf file) w = Throw (Error (lit "Upload failed"))
   ↔ ∃ r, next_answer w = Responded r ∧ (status r < 200 ∨ 299 < status r))
  ∧ (result (api.askQuestion q) w = Throw (Error (lit "Question failed"))
     ↔ ∃ r, next_answer w = Responded r
            ∧ (status r < 200 ∨ 299 < status r)).
Proof.
  unfold result. rewrite uploadPdf_run, askQuestion_run. cbn [fst].
  split; apply settle_fallback.
Qed.

(** X3: when no response is obtained, both operations of the client fail
    with the TypeError of the transport, its message untouched; when a
    response in 200-299 has a body that does not parse, they fail with the
    SyntaxError of the parser.  One request went out in either case. *)
Theorem api_transport_errors (file : File) (q : jsstring) (w : World)
    (why : jsstring) :
  (next_answer w = NetworkFailure why →
   api.uploadPdf file w
   = (Throw (TypeError why), send (upload_request w file) w)
   ∧ api.askQuestion q w
     = (Throw (TypeError why), send (ask_request w q) w))
  ∧ (∀ r, next_answer w = Responded r → 200 <= status r <= 299 →
          payload r = Malformed why →
          api.uploadPdf file w
          = (Throw (SyntaxError why), send (upload_request w file) w)
          ∧ api.askQuestion q w
            = (Throw (SyntaxError why), send (ask_request w q) w)).
Proof.
  rewrite uploadPdf_run, askQuestion_run. split.
  - intros ->. split; reflexivity.
  - intros r -> [H1 H2] Hp. apply Z.leb_le in H1, H2.
    unfold settle, ok. rewrite H1, H2, Hp. split; reflexivity.
Qed.

Lemma api_transport_errors_witness :
  let offline :=
    boot None (fun _ => NetworkFailure (lit "Failed to fetch")) ticking in
  let garbled :=
    boot None (always (mkResponse 200 (Malformed (lit "Unexpected token"))))
         ticking in
  result (api.uploadPdf a_pdf) offline
  = Throw (TypeError (lit "Failed to fetch"))
  ∧ result (api.askQuestion (lit "Q1")) garbled
    = Throw (SyntaxError (lit "Unexpected token")).
Proof.
  intros offline garbled. split.
  - pose proof (proj1 (proj1 (api_transport_errors a_pdf (lit "Q1") offline
                                (lit "Failed to fetch")) eq_refl)) as H.
    unfold result. rewrite H. reflexivity.
  - pose proof (proj2 (proj2 (api_transport_errors a_pdf (lit "Q1") garbled
                                (lit "Unexpected token"))
                         (mkResponse 200 (Malformed (lit "Unexpected token")))
                         eq_refl ltac:(cbn; lia) eq_refl)) as H.
    unfold result. rewrite H. reflexivity.
Defined.

(** ** The hooks: what a call touches and how it settles *)

(** X4: a call of a hook changes nothing but the state of that hook, the
    request log and, for a question, the count of clock readings.
    [uploadFile] sends exactly one request and never reads the clock;
    [askQuestion] sends exactly one request and reads the clock at most
    twice; neither touches the other hook, the page or the input of the
    form. *)
Theorem hooks_frame (file : File) (q : jsstring) (w : World) :
  (let w' := exec (useFileUpload.uploadFile file) w in
   questions w' = questions w ∧ home w' = home w
   ∧ question w' = question w
   ∧ sent (browser w') = sent (browser w) ++ [upload_request w file]
   ∧ clock_reads (browser w') = clock_reads (browser w))
  ∧ (let w' := exec (useQuestions.askQuestion q) w in
     fileUpload w' = fileUpload w ∧ home w' = home w
     ∧ question w' = question w
     ∧ sent (browser w') = sent (browser w) ++ [ask_request w q]
     ∧ (clock_reads (browser w) ≤ clock_reads (browser w')
        ≤ 2 + clock_reads (browser w))%nat).
Proof.
  split; intros w'; subst w'; unfold exec.
  - rewrite uploadFile_run. cbn -[settle].
    destruct (settle _ _); repeat split; reflexivity.
  - rewrite askQuestion_hook_run. cbn -[settle].
    destruct (settle _ _) as [v|e]; [destruct (nullish v)|]; cbn;
      repeat split; try reflexivity; lia.
Qed.


(** X6: a failed upload does not discard the result of an earlier one:
    when an upload that resolved with [r] is followed by one that fails,
    the hook holds both the result [r] and the error 'Upload failed'. *)
Theorem failed_upload_keeps_result (file1 file2 : File) (w : World)
    (r : JsValue) :
  result (useFileUpload.uploadFile file1) w = Normal r →
  resolved
    (result (useFileUpload.uploadFile file2)
       (exec (useFileUpload.uploadFile file1) w)) = false →
  fileUpload
    (exec (useFileUpload.uploadFile file2)
       (exec (useFileUpload.uploadFile file1) w))
  = UploadState.mk false r (Some (lit "Upload failed")).
Proof.
  intros H1 H2. rewrite (uploadFile_rejected _ _ H2). f_equal.
  revert H1. unfold result, exec. rewrite uploadFile_run. cbn -[settle].
  destruct (settle _ _); [|discriminate]. intros [= ->]. reflexivity.
Qed.

Lemma failed_upload_keeps_result_witness :
  let w := boot None (ok_then_down upload_body) ticking in
  result (useFileUpload.uploadFile a_pdf) w = Normal upload_body
  ∧ fileUpload
      (exec (useFileUpload.uploadFile notes_txt)
         (exec (useFileUpload.uploadFile a_pdf) w))
    = UploadState.mk false upload_body (Some (lit "Upload failed")).
Proof.
  intros w.
  assert (H1 : result (useFileUpload.uploadFile a_pdf) w = Normal upload_body)
    by (vm_compute; reflexivity).
  split; [exact H1|].
  apply (failed_upload_keeps_result a_pdf notes_txt w upload_body H1).
  vm_compute. reflexivity.
Defined.

(** X7: a call of [askQuestion] on the question hook resolves exactly
    when a response in 200-299 arrives whose body parses to something
    other than null; the entry it puts in front holds the question as
    given (not trimmed) and whatever the body has under [answer] and
    [source_documents], undefined where the body has no such property. *)
Theorem askQuestion_hook_resolves_iff (q : jsstring) (w : World)
    (v : JsValue) :
  (result (useQuestions.askQuestion q) w = Normal v
   ↔ ∃ r, next_answer w = Responded r ∧ 200 <= status r <= 299
          ∧ payload r = Json v ∧ nullish v = false)
  ∧ (result (useQuestions.askQuestion q) w = Normal v →
     ∃ e, QuestionsState.history
            (questions (exec (useQuestions.askQuestion q) w))
          = e :: QuestionsState.history (questions w)
          ∧ QuestionHistory.question e = q
          ∧ QuestionHistory.answer e = prop v (lit "answer")
          ∧ QuestionHistory.source_documents e
            = prop v (lit "source_documents")).
Proof.
  unfold result, exec. rewrite askQuestion_hook_run. cbn -[settle].
  split.
  - pose proof (settle_resolves (lit "Question failed") (next_answer w) v)
      as Hres.
    destruct (settle _ _) as [v'|e]; [destruct (nullish v') eqn:Hn|]; cbn.
    + split; [discriminate|]. intros (r & Hr & Hs & Hp & Hv).
      assert (Normal v' = Normal v) as [= ->] by (apply Hres; eauto).
      congruence.
    + split.
      * intros [= ->]. destruct (proj1 Hres eq_refl) as (r & Hr & Hs & Hp).
        exists r. auto.
      * intros (r & Hr & Hs & Hp & Hv). apply Hres. eauto.
    + split; [discriminate|]. intros (r & Hr & Hs & Hp & Hv).
      assert (@Throw JsValue e = Normal v) by (apply Hres; eauto).
      discriminate.
  - destruct (settle _ _) as [v'|e]; [destruct (nullish v')|]; cbn;
      try discriminate.
    intros [= ->]. exists (new_entry w q v). repeat split.
Qed.

Lemma askQuestion_hook_resolves_iff_witness :
  let w :=
    boot None
      (always (mkResponse 200 (Json (VObj [(lit "answer", VStr (lit "X"))]))))
      ticking in
  let v := VObj [(lit "answer", VStr (lit "X"))] in
  result (useQuestions.askQuestion (lit " Q ")) w = Normal v
  ∧ ∃ e, QuestionsState.history
           (questions (exec (useQuestions.askQuestion (lit " Q ")) w)) = [e]
         ∧ QuestionHistory.question e = lit " Q "
         ∧ QuestionHistory.answer e = VStr (lit "X")
         ∧ QuestionHistory.source_documents e = VUndefined.
Proof.
  intros w v.
  assert (H : result (useQuestions.askQuestion (lit " Q ")) w = Normal v)
    by (vm_compute; reflexivity).
  split; [exact H|].
  destruct (proj2 (askQuestion_hook_resolves_iff (lit " Q ") w v) H)
    as (e & He & Hq & Ha & Hs).
  exists e. split; [exact He|]. split; [exact Hq|].
  split; [rewrite Ha|rewrite Hs]; vm_compute; reflexivity.
Defined.



(** ** The question form *)

Lemma snoc_neq {A} (l : list A) (x : A) : l ++ [x] ≠ l.
Proof.
  intros H. apply (f_equal length) in H. rewrite length_app in H.
  cbn in H. lia.
Qed.

Lemma askQuestion_sent (q : jsstring) (w : World) :
  sent (browser (snd (useQuestions.askQuestion q w)))
  = sent (browser w) ++ [ask_request w q].
Proof.
  rewrite askQuestion_hook_run. cbn -[settle].
  destruct (settle _ _) as [v|e]; [destruct (nullish v)|]; reflexivity.
Qed.

Lemma handleSubmit_sent (disabled : bool) (w : World) :
  sent (browser (exec (QuestionInterface.handleSubmit disabled) w))
  = if QuestionInterfaceView.submitDisabled disabled w
    then sent (browser w)
    else sent (browser w) ++ [ask_request w (trim (question w))].
Proof.
  rewrite handleSubmit_exec. unfold QuestionInterfaceView.submitDisabled.
  destruct (negb (truthy (trim (question w)))
            || QuestionsState.loading (questions w) || disabled);
    [reflexivity|].
  pose proof (askQuestion_sent (trim (question w)) (exec preventDefault w))
    as H.
  destruct (useQuestions.askQuestion _ _) as [[v|e] w']; exact H.
Qed.

(** X9: the submit button and the submit handler agree: a submit sends
    nothing exactly when the button is rendered disabled, and sends
    exactly one request, for the trimmed input, when the button is
    enabled. *)
Theorem submit_button_matches_guard (disabled : bool) (w : World) :
  (QuestionInterfaceView.submitDisabled disabled w = true
   ↔ sent (browser (exec (QuestionInterface.handleSubmit disabled) w))
     = sent (browser w))
  ∧ (QuestionInterfaceView.submitDisabled disabled w = false
     ↔ sent (browser (exec (QuestionInterface.handleSubmit disabled) w))
       = sent (browser w) ++ [ask_request w (trim (question w))]).
Proof.
  rewrite handleSubmit_sent.
  destruct (QuestionInterfaceView.submitDisabled disabled w); split; split;
    try reflexivity; try discriminate; intros H; exfalso.
  - symmetry in H. exact (snoc_neq _ _ H).
  - exact (snoc_neq _ _ H).
Qed.

Lemma handleSubmit_proceeds (disabled : bool) (w : World) :
  QuestionInterfaceView.submitDisabled disabled w = false →
  exec (QuestionInterface.handleSubmit disabled) w =
    match useQuestions.askQuestion (trim (question w))
            (exec preventDefault w) with
    | (Normal _, w') => typed [] w'
    | (Throw _, w') => w'
    end.
Proof.
  intros H. rewrite handleSubmit_exec.
  unfold QuestionInterfaceView.submitDisabled in H. rewrite H. reflexivity.
Qed.

(** X10: a submit never rejects.  When it proceeds and the call of the
    hook resolves, the input of the form is emptied and no error is
    stored; when the call fails, the input is left as typed, the history
    is unchanged and 'Question failed' is stored. *)
Theorem handleSubmit_settles (disabled : bool) (w : World) :
  result (QuestionInterface.handleSubmit disabled) w = Normal tt
  ∧ (QuestionInterfaceView.submitDisabled disabled w = false →
     let call :=
       result (useQuestions.askQuestion (trim (question w)))
              (exec preventDefault w) in
     let w' := exec (QuestionInterface.handleSubmit disabled) w in
     (resolved call = true →
      question w' = [] ∧ QuestionsState.error (questions w') = None)
     ∧ (resolved call = false →
        question w' = question w
        ∧ questions w' =
            QuestionsState.mk false (QuestionsState.history (questions w))
              (Some (lit "Question failed")))).
Proof.
  split.
  - unfold result. rewrite handleSubmit_run. cbv zeta.
    destruct (negb (truthy (trim (question w)))
              || QuestionsState.loading (questions w) || disabled);
      [reflexivity|].
    destruct (useQuestions.askQuestion _ _) as [[v|e] w']; reflexivity.
  - intros Hgo call w'. subst call w'.
    rewrite (handleSubmit_proceeds _ _ Hgo).
    unfold result. rewrite askQuestion_hook_run. cbn -[settle].
    destruct (settle _ _) as [v|e] eqn:Hs; [destruct (nullish v)|]; cbn;
      split; try discriminate; intros _; split; try reflexivity.
    unfold display. rewrite (settle_not_ApiError _ _ _ Hs). reflexivity.
Qed.

Lemma handleSubmit_settles_witness :
  let kept :=
    typed (lit "What is X?") (boot None (always server_down) ticking) in
  question (exec (QuestionInterface.handleSubmit false) kept)
  = lit "What is X?"
  ∧ QuestionsState.error
      (questions (exec (QuestionInterface.handleSubmit false) kept))
    = Some (lit "Question failed").
Proof.
  intros kept.
  destruct (proj2 (proj2 (handleSubmit_settles false kept)
                     ltac:(vm_compute; reflexivity))
              ltac:(vm_compute; reflexivity)) as [Hq Hs].
  split; [exact Hq|]. rewrite Hs. reflexivity.
Defined.

(** X11: submitting twice in a row adds one entry, not two: after a
    submit that proceeded and resolved the input is empty, so a second
    submit, whatever its [disabled] prop, sends no request and leaves the
    hook and the input as they are. *)
Theorem second_submit_is_noop (disabled disabled' : bool) (w : World) :
  QuestionInterfaceView.submitDisabled disabled w = false →
  resolved (result (useQuestions.askQuestion (trim (question w)))
              (exec preventDefault w)) = true →
  let w1 := exec (QuestionInterface.handleSubmit disabled) w in
  let w2 := exec (QuestionInterface.handleSubmit disabled') w1 in
  length (QuestionsState.history (questions w1))
  = S (length (QuestionsState.history (questions w)))
  ∧ sent (browser w2) = sent (browser w1)
  ∧ questions w2 = questions w1
  ∧ question w2 = question w1.
Proof.
  intros Hgo Hok w1 w2.
  assert (Hempty : question w1 = []).
  { subst w1. rewrite (handleSubmit_proceeds _ _ Hgo).
    revert Hok. unfold result.
    destruct (useQuestions.askQuestion _ _) as [[v|e] w0];
      [reflexivity|discriminate]. }
  assert (Hblocked : QuestionInterfaceView.submitDisabled disabled' w1 = true).
  { unfold QuestionInterfaceView.submitDisabled. rewrite Hempty.
    reflexivity. }
  split; [|split; [|split]].
  - subst w1. rewrite (handleSubmit_proceeds _ _ Hgo).
    revert Hok. unfold result. rewrite askQuestion_hook_run.
    cbn -[settle].
    destruct (settle _ _) as [v|e]; [destruct (nullish v)|]; cbn;
      try discriminate. reflexivity.
  - subst w2. rewrite handleSubmit_sent, Hblocked. reflexivity.
  - subst w2. rewrite handleSubmit_exec.
    unfold QuestionInterfaceView.submitDisabled in Hblocked.
    rewrite Hblocked. reflexivity.
  - subst w2. rewrite handleSubmit_exec.
    unfold QuestionInterfaceView.submitDisabled in Hblocked.
    rewrite Hblocked. reflexivity.
Qed.

Lemma second_submit_is_noop_witness :
  let w :=
    typed (lit "What is X?")
      (boot None (always (mkResponse 200 (Json answer_body))) ticking) in
  let w2 :=
    exec (QuestionInterface.handleSubmit false)
      (exec (QuestionInterface.handleSubmit false) w) in
  length (sent (browser w2)) = 1%nat
  ∧ length (QuestionsState.history (questions w2)) = 1%nat.
Proof.
  intros w w2.
  destruct (second_submit_is_noop false false w
              ltac:(vm_compute; reflexivity) ltac:(vm_compute; reflexivity))
    as (Hlen & Hsent & Hq & _).
  subst w2. rewrite Hsent, Hq, Hlen. split; vm_compute; reflexivity.
Defined.

(** ** Trimming *)

Lemma trimStart_head (s : jsstring) (c : N) :
  head (trimStart s) = Some c → isWhiteSpace c = false.
Proof.
  induction s as [|a s IH]; cbn [trimStart]; [discriminate|].
  destruct (isWhiteSpace a) eqn:Ha; [exact IH|].
  cbn [head]. intros [= <-]. exact Ha.
Qed.

Lemma trimStart_snoc (s : jsstring) (c : N) :
  isWhiteSpace c = false → trimStart (s ++ [c]) = trimStart s ++ [c].
Proof.
  intros Hc. induction s as [|a s IH]; cbn [trimStart app].
  - rewrite Hc. reflexivity.
  - destruct (isWhiteSpace a); [exact IH|reflexivity].
Qed.

Lemma last_rev_head {A} (l : list A) : last (rev l) = head l.
Proof.
  destruct l as [|a l]; [reflexivity|].
  cbn [rev head]. apply last_snoc.
Qed.

Lemma trim_clean_ends (s : jsstring) : clean_ends (trim s).
Proof.
  unfold clean_ends, trim, trimEnd. split; intros c Hc.
  - destruct (trimStart s) as [|c0 t] eqn:Ht; [discriminate|].
    assert (H0 : isWhiteSpace c0 = false)
      by (apply (trimStart_head s); rewrite Ht; reflexivity).
    cbn [rev] in Hc. rewrite (trimStart_snoc _ _ H0) in Hc.
    rewrite rev_app_distr in Hc. cbn in Hc. injection Hc as <-. exact H0.
  - rewrite last_rev_head in Hc. exact (trimStart_head _ _ Hc).
Qed.

(** X12: every entry created through the form holds a cleaned question:
    when a submit proceeds and resolves, the question of the new entry is
    the trimmed input, it is not empty, and it neither starts nor ends
    with white space; the request carried the same text. *)
Theorem submitted_question_is_trimmed (disabled : bool) (w : World) :
  QuestionInterfaceView.submitDisabled disabled w = false →
  resolved (result (useQuestions.askQuestion (trim (question w)))
              (exec preventDefault w)) = true →
  let w' := exec (QuestionInterface.handleSubmit disabled) w in
  ∃ e, QuestionsState.history (questions w')
       = e :: QuestionsState.history (questions w)
       ∧ QuestionHistory.question e = trim (question w)
       ∧ QuestionHistory.question e ≠ []
       ∧ clean_ends (QuestionHistory.question e)
       ∧ last (sent (browser w'))
         = Some (ask_request w (QuestionHistory.question e)).
Proof.
  intros Hgo Hok w'.
  assert (Hne : trim (question w) ≠ []).
  { unfold QuestionInterfaceView.submitDisabled in Hgo.
    destruct (trim (question w)); [discriminate|congruence]. }
  assert (Hsent : sent (browser w')
                  = sent (browser w) ++ [ask_request w (trim (question w))])
    by (subst w'; rewrite handleSubmit_sent, Hgo; reflexivity).
  subst w'. rewrite Hsent. rewrite (handleSubmit_proceeds _ _ Hgo).
  revert Hok. unfold result. rewrite askQuestion_hook_run. cbn -[settle].
  destruct (settle _ _) as [v|e]; [destruct (nullish v)|]; cbn;
    try discriminate.
  intros _. exists (new_entry (exec preventDefault w) (trim (question w)) v).
  split; [reflexivity|]. split; [reflexivity|]. split; [exact Hne|].
  split; [apply trim_clean_ends|]. apply last_snoc.
Qed.

Lemma submitted_question_is_trimmed_witness :
  let w :=
    typed (lit "  What is X?  ")
      (boot None (always (mkResponse 200 (Json answer_body))) ticking) in
  ∃ e, QuestionsState.history
         (questions (exec (QuestionInterface.handleSubmit false) w)) = [e]
       ∧ QuestionHistory.question e = lit "What is X?".
Proof.
  intros w.
  destruct (submitted_question_is_trimmed false w
              ltac:(vm_compute; reflexivity) ltac:(vm_compute; reflexivity))
    as (e & He & Hq & _).
  exists e. split; [exact He|]. rewrite Hq. vm_compute. reflexivity.
Defined.

(** ** The history over a session *)

Lemma question_step_keeps (a : QuestionAction) (w : World) :
  a ≠ Clear →
  QuestionsState.history (questions (question_step a w))
  = QuestionsState.history (questions w)
  ∨ ∃ e, QuestionsState.history (questions (question_step a w))
         = e :: QuestionsState.history (questions w).
Proof.
  intros Ha.
  assert (Hask : ∀ q w0,
            QuestionsState.history (questions w0)
            = QuestionsState.history (questions w) →
            QuestionsState.history
              (questions (snd (useQuestions.askQuestion q w0)))
            = QuestionsState.history (questions w)
            ∨ ∃ e, QuestionsState.history
                     (questions (snd (useQuestions.askQuestion q w0)))
                   = e :: QuestionsState.history (questions w)).
  { intros q w0 <-. rewrite askQuestion_hook_run. cbn -[settle].
    destruct (settle _ _) as [v|e]; [destruct (nullish v)|]; cbn; eauto. }
  destruct a as [q| |disabled|s]; unfold question_step.
  - apply Hask. reflexivity.
  - congruence.
  - rewrite handleSubmit_exec.
    destruct (negb (truthy (trim (question w)))
              || QuestionsState.loading (questions w) || disabled);
      [left; reflexivity|].
    specialize (Hask (trim (question w)) (exec preventDefault w) eq_refl).
    destruct (useQuestions.askQuestion _ _) as [[v|e] w']; exact Hask.
  - left. reflexivity.
Qed.

(** X13: entries stay until the history is cleared: over any sequence of
    actions on the question form that contains no clear, the history at
    the start is still there at the end, unchanged, behind the entries
    added since. *)
Theorem history_persists (acts : list QuestionAction) (w : World) :
  never_cleared acts →
  ∃ newer,
    QuestionsState.history (questions (question_session acts w))
    = newer ++ QuestionsState.history (questions w)
    ∧ (length newer ≤ length acts)%nat.
Proof.
  revert w. induction acts as [|a acts IH]; intros w Hnc.
  - exists []. split; [reflexivity|cbn; lia].
  - apply Forall_cons in Hnc as [Ha Hnc].
    cbn [question_session fold_left].
    destruct (IH (question_step a w) Hnc) as (newer & Hh & Hlen).
    unfold question_session in Hh. rewrite Hh.
    destruct (question_step_keeps a w Ha) as [-> | (e & ->)].
    + exists newer. split; [reflexivity|cbn; lia].
    + exists (newer ++ [e]). split.
      * rewrite <- app_assoc. reflexivity.
      * rewrite length_app. cbn. lia.
Qed.

Lemma history_persists_witness :
  let w :=
    exec (useQuestions.askQuestion (lit "Q1"))
      (boot None (ok_then_down answer_body) ticking) in
  ∃ newer,
    QuestionsState.history
      (questions (question_session
                    [Input (lit "Q2"); Submit false; Ask (lit "Q3")] w))
    = newer ++ QuestionsState.history (questions w).
Proof.
  intros w.
  destruct (history_persists
              [Input (lit "Q2"); Submit false; Ask (lit "Q3")] w)
    as (newer & H & _).
  { repeat constructor; discriminate. }
  exists newer. exact H.
Defined.

(** X14: no entry without a request: in every state reached from the
    initial one by actions on the question form, the history has at most
    as many entries as requests were sent, and the clock was read at most
    twice per request. *)
Theorem history_bounded_by_requests url net clk
    (acts : list QuestionAction) :
  let w := question_session acts (boot url net clk) in
  (length (QuestionsState.history (questions w))
   ≤ length (sent (browser w)))%nat
  ∧ (clock_reads (browser w) ≤ 2 * length (sent (browser w)))%nat.
Proof.
  intros w. subst w.
  assert (Hinv : ∀ acts w,
    (length (QuestionsState.history (questions w))
     ≤ length (sent (browser w)))%nat
    ∧ (clock_reads (browser w) ≤ 2 * length (sent (browser w)))%nat →
    (length (QuestionsState.history (questions (question_session acts w)))
     ≤ length (sent (browser (question_session acts w))))%nat
    ∧ (clock_reads (browser (question_session acts w))
       ≤ 2 * length (sent (browser (question_session acts w))))%nat).
  { clear. induction acts as [|a acts IH]; intros w Hw; [exact Hw|].
    cbn [question_session fold_left]. apply IH. clear IH.
    assert (Hask : ∀ q w0,
      QuestionsState.history (questions w0)
      = QuestionsState.history (questions w) →
      sent (browser w0) = sent (browser w) →
      clock_reads (browser w0) = clock_reads (browser w) →
      let w1 := snd (useQuestions.askQuestion q w0) in
      (length (QuestionsState.history (questions w1))
       ≤ length (sent (browser w1)))%nat
      ∧ (clock_reads (browser w1) ≤ 2 * length (sent (browser w1)))%nat).
    { intros q w0 Hh Hs Hc w1. subst w1.
      rewrite askQuestion_hook_run. cbn -[settle].
      destruct (settle _ _) as [v|e]; [destruct (nullish v)|]; cbn;
        rewrite Hh, Hs, Hc, length_app; cbn; lia. }
    destruct a as [q| |disabled|s]; unfold question_step.
    - apply Hask; reflexivity.
    - cbn. lia.
    - rewrite handleSubmit_exec.
      destruct (negb (truthy (trim (question w)))
                || QuestionsState.loading (questions w) || disabled);
        [exact Hw|].
      specialize (Hask (trim (question w)) (exec preventDefault w)
                    eq_refl eq_refl eq_refl).
      destruct (useQuestions.askQuestion _ _) as [[v|e] w']; exact Hask.
    - exact Hw. }
  apply Hinv. cbn. lia.
Qed.

(** ** The page *)

Lemma handleFileSelect_effect (file : File) (w0 w : World) :
  fileUpload w0 = fileUpload w → questions w0 = questions w →
  home w0 = home w → question w0 = question w →
  sent (browser w0) = sent (browser w) →
  upload_request w0 file = upload_request w file →
  page_effect w
    (exec (FileUpload.handleFileSelect Home.handleUploadSuccess file) w0).
Proof.
  intros Hf Hq Hh Hi Hs Hr. unfold exec.
  rewrite handleFileSelect_run, uploadFile_run. cbn -[settle].
  destruct (settle _ _) as [r|e] eqn:Hset; cbn.
  - apply (effect_uploaded _ _ file r); cbn; try assumption; try reflexivity.
    rewrite Hs, Hr. reflexivity.
  - apply (effect_upload_failed _ _ file); cbn; try assumption.
    + unfold display. rewrite (settle_not_ApiError _ _ _ Hset), Hf.
      reflexivity.
    + rewrite Hs, Hr. reflexivity.
Qed.

Lemma page_step_effect (a : PageAction) (w : World) :
  page_effect w (page_step a w).
Proof.
  destruct a as [files|files| |s| |]; unfold page_step.
  - unfold FileUpload.handleDrop.
    destruct (find _ files) as [pdfFile|].
    + apply (handleFileSelect_effect pdfFile (exec preventDefault w));
        reflexivity.
    + apply effect_none; reflexivity.
  - unfold FileUpload.handleFileInput.
    destruct files as [[|file rest]|]; cbn [head];
      try (apply effect_none; reflexivity).
    apply handleFileSelect_effect; reflexivity.
  - apply effect_reset; reflexivity.
  - unfold HomeView.questionInterface.
    destruct (HomeState.hasUploadedFile (home w)) eqn:Hup.
    + apply effect_typed; try reflexivity. exact Hup.
    + apply effect_none; reflexivity.
  - unfold HomeView.questionInterface.
    destruct (HomeState.hasUploadedFile (home w)) eqn:Hup;
      [|apply effect_none; reflexivity].
    rewrite handleSubmit_exec. cbn [negb]. rewrite orb_false_r.
    destruct (truthy (trim (question w))) eqn:Ht; cbn [negb orb];
      [|apply effect_none; reflexivity].
    destruct (QuestionsState.loading (questions w)) eqn:Hl;
      [apply effect_none; reflexivity|].
    assert (Hne : trim (question w) ≠ [])
      by (destruct (trim (question w)); [discriminate|congruence]).
    rewrite askQuestion_hook_run. cbn -[settle trim].
    destruct (settle _ _) as [v|e] eqn:Hset; [destruct (nullish v)|].
    + apply effect_ask_failed; try assumption; reflexivity.
    + apply (effect_answered _ _
               (new_entry (exec preventDefault w) (trim (question w)) v));
        try assumption; reflexivity.
    + apply effect_ask_failed; try assumption; try reflexivity.
      cbn. unfold display. rewrite (settle_not_ApiError _ _ _ Hset).
      reflexivity.
  - unfold HomeView.questionInterface.
    destruct (HomeState.hasUploadedFile (home w)) eqn:Hup.
    + apply effect_cleared; try reflexivity. exact Hup.
    + apply effect_none; reflexivity.
Qed.

Lemma page_step_base (a : PageAction) (w : World) :
  API_BASE_URL (page_step a w) = API_BASE_URL w.
Proof.
  unfold API_BASE_URL.
  assert (Hsel : ∀ file w0,
    NEXT_PUBLIC_API_URL (browser w0) = NEXT_PUBLIC_API_URL (browser w) →
    NEXT_PUBLIC_API_URL
      (browser
         (exec (FileUpload.handleFileSelect Home.handleUploadSuccess file)
            w0))
    = NEXT_PUBLIC_API_URL (browser w)).
  { intros file w0 <-. unfold exec.
    rewrite handleFileSelect_run, uploadFile_run. cbn -[settle].
    destruct (settle _ _); reflexivity. }
  assert (H : NEXT_PUBLIC_API_URL (browser (page_step a w))
              = NEXT_PUBLIC_API_URL (browser w)); [|rewrite H; reflexivity].
  destruct a as [files|files| |s| |]; unfold page_step.
  - unfold FileUpload.handleDrop.
    destruct (find _ files) as [pdfFile|]; [|reflexivity].
    apply (Hsel pdfFile (exec preventDefault w)). reflexivity.
  - unfold FileUpload.handleFileInput.
    destruct files as [[|file rest]|]; cbn [head]; try reflexivity.
    apply Hsel. reflexivity.
  - reflexivity.
  - destruct (HomeView.questionInterface w); reflexivity.
  - destruct (HomeView.questionInterface w) as [disabled|]; [|reflexivity].
    rewrite handleSubmit_exec.
    destruct (negb (truthy (trim (question w)))
              || QuestionsState.loading (questions w) || disabled);
      [reflexivity|].
    rewrite askQuestion_hook_run. cbn -[settle trim].
    destruct (settle _ _) as [v|e]; [destruct (nullish v)|]; reflexivity.
  - destruct (HomeView.questionInterface w); reflexivity.
Qed.

Lemma page_session_inv (P : World → Prop) :
  (∀ a w, P w → P (page_step a w)) →
  ∀ acts w, P w → P (page_session acts w).
Proof.
  intros Hstep. induction acts as [|a acts IH]; intros w Hw; [exact Hw|].
  cbn [page_session fold_left]. apply IH, Hstep, Hw.
Qed.

(** X15: the page stays ready.  Once an upload through the widget has
    succeeded, no event brings [hasUploadedFile] back to false; in
    particular the reset of the widget clears the hook only and leaves
    the page, its copy of the result included, as it is. *)
Theorem page_stays_ready (acts : list PageAction) (w : World) :
  HomeState.hasUploadedFile (home w) = true →
  HomeState.hasUploadedFile (home (page_session acts w)) = true
  ∧ home (page_step OnResetUpload w) = home w
  ∧ UploadState.uploadResult (fileUpload (page_step OnResetUpload w))
    = VNull.
Proof.
  intros Hready. split; [|split; reflexivity].
  revert Hready.
  apply (page_session_inv
           (fun w => HomeState.hasUploadedFile (home w) = true)).
  intros a w0 Hw.
  destruct (page_step_effect a w0);
    repeat match goal with H : home _ = _ |- _ => rewrite H end;
    try exact Hw; reflexivity.
Qed.

Lemma page_stays_ready_witness :
  let w := page_step (OnDrop [notes_txt; a_pdf]) fresh_page in
  HomeState.hasUploadedFile (home w) = true
  ∧ HomeState.hasUploadedFile
      (home (page_session [OnResetUpload; OnFileInput None] w)) = true
  ∧ home (page_step OnResetUpload w) = HomeState.mk true upload_body.
Proof.
  intros w.
  assert (H : HomeState.hasUploadedFile (home w) = true)
    by (vm_compute; reflexivity).
  destruct (page_stays_ready [OnResetUpload; OnFileInput None] w H)
    as (Hs & Hr & _).
  split; [exact H|]. split; [exact Hs|]. rewrite Hr.
  vm_compute. reflexivity.
Defined.

(** X16: whenever the upload hook holds a result, the page is ready and
    holds the same result: in every state reached from the initial one by
    events of the page, the result of the hook is null or the page has
    [hasUploadedFile] set and its own copy equal to it. *)
Theorem result_implies_ready url net clk (acts : list PageAction) :
  let w := page_session acts (boot url net clk) in
  UploadState.uploadResult (fileUpload w) = VNull
  ∨ home w = HomeState.mk true (UploadState.uploadResult (fileUpload w)).
Proof.
  intros w. subst w.
  apply (page_session_inv (fun w =>
    UploadState.uploadResult (fileUpload w) = VNull
    ∨ home w = HomeState.mk true (UploadState.uploadResult (fileUpload w)))).
  - clear. intros a w Hw.
    destruct (page_step_effect a w);
      repeat match goal with
             | H : home _ = _ |- _ => rewrite H
             | H : fileUpload _ = _ |- _ => rewrite H
             end; cbn; auto.
  - left. reflexivity.
Qed.

(** X17: no question before an upload.  In every state reached from the
    initial one by events of the page, as long as no upload through the
    widget has succeeded the question hook and the input of the form are
    in their initial state and every request sent so far carried a
    file. *)
Theorem no_question_before_upload url net clk (acts : list PageAction) :
  let w := page_session acts (boot url net clk) in
  HomeState.hasUploadedFile (home w) = false →
  questions w = QuestionsState.initial ∧ question w = []
  ∧ home w = HomeState.initial
  ∧ forallb is_upload (sent (browser w)) = true.
Proof.
  intros w. subst w.
  apply (page_session_inv (fun w =>
    HomeState.hasUploadedFile (home w) = false →
    questions w = QuestionsState.initial ∧ question w = []
    ∧ home w = HomeState.initial
    ∧ forallb is_upload (sent (browser w)) = true)).
  - clear. intros a w Hw.
    destruct (page_step_effect a w);
      repeat match goal with
             | H : home _ = _ |- _ => rewrite H
             | H : questions _ = _ |- _ => rewrite H
             | H : question _ = _ |- _ => rewrite H
             | H : sent _ = _ |- _ => rewrite H
             end; cbn; try congruence; intros Hno;
      try (destruct (Hw Hno) as (Hq & Hi & Hh & Hs));
      repeat split; try assumption; try congruence;
      rewrite forallb_app, Hs; reflexivity.
  - intros _. repeat split.
Qed.

Lemma no_question_before_upload_witness :
  let w :=
    page_session
      [OnChange (lit "Q1"); OnSubmit; OnFileInput (Some [notes_txt]);
       OnChange (lit "Q2"); OnSubmit; OnClearHistory]
      (boot None (always too_large) ticking) in
  HomeState.hasUploadedFile (home w) = false
  ∧ questions w = QuestionsState.initial
  ∧ length (sent (browser w)) = 1%nat.
Proof.
  intros w.
  assert (H : HomeState.hasUploadedFile (home w) = false)
    by (vm_compute; reflexivity).
  destruct (no_question_before_upload None (always too_large) ticking
              [OnChange (lit "Q1"); OnSubmit; OnFileInput (Some [notes_txt]);
               OnChange (lit "Q2"); OnSubmit; OnClearHistory] H)
    as (Hq & _).
  split; [exact H|]. split; [exact Hq|]. vm_compute. reflexivity.
Defined.

(** X18: the page talks to two endpoints only: every request sent in a
    session of the page is a POST to the base URL, as configured when the
    page started, followed by /upload-pdf or /ask-question; the base URL
    is the configured one when that is set and not empty, and
    http://localhost:8000 otherwise. *)
Theorem requests_go_to_base setting net clk (acts : list PageAction) :
  let base :=
    match setting with
    | Some (c :: u) => c :: u
    | Some [] | None => lit "http://localhost:8000"
    end in
  Forall (client_request base)
    (sent (browser (page_session acts (boot setting net clk)))).
Proof.
  intros base.
  assert (Hbase : API_BASE_URL (boot setting net clk) = base)
    by (destruct setting as [[|c u]|]; reflexivity).
  apply (page_session_inv (fun w =>
    API_BASE_URL w = base ∧ Forall (client_request base) (sent (browser w)))).
  - clear. intros a w [Hb Hs]. split; [rewrite page_step_base; exact Hb|].
    assert (Hup : ∀ f, client_request base (upload_request w f)).
    { intros f. split; [reflexivity|]. left. cbn. rewrite Hb. reflexivity. }
    assert (Hask : ∀ q, client_request base (ask_request w q)).
    { intros q. split; [reflexivity|]. right. cbn. rewrite Hb. reflexivity. }
    destruct (page_step_effect a w);
      match goal with H : sent _ = _ |- _ => rewrite H end;
      try exact Hs; apply Forall_app; split; try exact Hs;
      (apply Forall_cons; split; [auto|constructor]).
  - split; [exact Hbase|constructor].
Qed.

(** X19: on the page every entry of the history holds a cleaned
    question: in every state reached from the initial one by events of
    the page, no entry has an empty question or one that starts or ends
    with white space. *)
Theorem page_entries_are_trimmed setting net clk (acts : list PageAction) :
  Forall (fun e => QuestionHistory.question e ≠ []
                   ∧ clean_ends (QuestionHistory.question e))
    (QuestionsState.history
       (questions (page_session acts (boot setting net clk)))).
Proof.
  apply (page_session_inv (fun w =>
    Forall (fun e => QuestionHistory.question e ≠ []
                     ∧ clean_ends (QuestionHistory.question e))
      (QuestionsState.history (questions w)))).
  - clear. intros a w Hw.
    destruct (page_step_effect a w);
      match goal with H : questions _ = _ |- _ => rewrite H end;
      cbn; try exact Hw; [|constructor].
    apply Forall_cons. split; [|exact Hw].
    match goal with H : QuestionHistory.question e = _ |- _ => rewrite H end.
    split; [assumption|apply trim_clean_ends].
  - constructor.
Qed.

(** ** The upload widget and its callback *)

(** X21: [handleFileSelect] never rejects, whatever the callback does.
    The callback runs exactly when the upload resolved, on the result of
    the upload and after the hook has stored it; when the upload failed
    the callback does not run; an error thrown by the callback is
    swallowed like one thrown by the upload. *)
Theorem handleFileSelect_callback
    (onUploadSuccess : JsValue → Async unit) (file : File) (w : World) :
  result (FileUpload.handleFileSelect onUploadSuccess file) w = Normal tt
  ∧ (∀ r, result (useFileUpload.uploadFile file) w = Normal r →
          exec (FileUpload.handleFileSelect onUploadSuccess file) w
          = exec (onUploadSuccess r)
              (exec (useFileUpload.uploadFile file) w))
  ∧ (resolved (result (useFileUpload.uploadFile file) w) = false →
     exec (FileUpload.handleFileSelect onUploadSuccess file) w
     = exec (useFileUpload.uploadFile file) w).
Proof.
  unfold FileUpload.handleFileSelect, result, exec. run.
  destruct (useFileUpload.uploadFile file w) as [[r|e] w1]; cbn.
  - split; [destruct (onUploadSuccess r w1) as [[[]|e] w2]; reflexivity|].
    split; [|discriminate].
    intros r' [= <-].
    destruct (onUploadSuccess r w1) as [[[]|e] w2]; reflexivity.
  - split; [reflexivity|]. split; [discriminate|reflexivity].
Qed.

Lemma handleFileSelect_callback_witness :
  let failing : JsValue → Async unit :=
    fun _ => throw (TypeError (lit "callback failed")) in
  result (useFileUpload.uploadFile a_pdf) fresh_page = Normal upload_body
  ∧ result (FileUpload.handleFileSelect failing a_pdf) fresh_page
    = Normal tt
  ∧ exec (FileUpload.handleFileSelect failing a_pdf) fresh_page
    = exec (useFileUpload.uploadFile a_pdf) fresh_page.
Proof.
  intros failing.
  assert (H : result (useFileUpload.uploadFile a_pdf) fresh_page
              = Normal upload_body) by (vm_compute; reflexivity).
  destruct (handleFileSelect_callback failing a_pdf fresh_page)
    as (Hres & Hrun & _).
  split; [exact H|]. split; [exact Hres|].
  rewrite (Hrun upload_body H). reflexivity.
Defined.

(** X22: an upload through the widget that is answered in 200-299 with a
    body that parses marks the page ready with that body, whatever the
    body is; for the body null the page is ready while the hook still has
    no result.  An upload that fails leaves the page as it was. *)
Theorem widget_upload_marks_ready (file : File) (w : World) :
  let w' :=
    exec (FileUpload.handleFileSelect Home.handleUploadSuccess file) w in
  (∀ r v, next_answer w = Responded r → 200 <= status r <= 299 →
          payload r = Json v →
          home w' = HomeState.mk true v
          ∧ fileUpload w' = UploadState.mk false v None)
  ∧ (resolved (result (useFileUpload.uploadFile file) w) = false →
     home w' = home w).
Proof.
  intros w'. subst w'. unfold exec, result.
  rewrite handleFileSelect_run, uploadFile_run. cbn -[settle]. split.
  - intros r v Hr Hs Hp.
    assert (settle (lit "Upload failed") (next_answer w) = Normal v) as ->
      by (apply settle_resolves; eauto).
    split; reflexivity.
  - destruct (settle _ _); [discriminate|]. reflexivity.
Qed.

Lemma widget_upload_marks_ready_witness :
  let w := boot None (always (mkResponse 200 (Json VNull))) ticking in
  let w' :=
    exec (FileUpload.handleFileSelect Home.handleUploadSuccess a_pdf) w in
  HomeState.hasUploadedFile (home w') = true
  ∧ UploadState.uploadResult (fileUpload w') = VNull.
Proof.
  intros w w'.
  destruct (proj1 (widget_upload_marks_ready a_pdf w)
              (mkResponse 200 (Json VNull)) VNull eq_refl
              ltac:(cbn; lia) eq_refl) as [Hh Hf].
  subst w'. rewrite Hh, Hf. split; reflexivity.
Defined.

(** X23: the drop handler and the submit handler always prevent the
    default action of their event, also when they do nothing else; the
    change handler of the file input never does. *)
Theorem handlers_prevent_default (files : list File)
    (picked : option (list File)) (disabled : bool) (w : World) :
  defaultPrevented
    (browser (exec (FileUpload.handleDrop Home.handleUploadSuccess files) w))
  = true
  ∧ defaultPrevented
      (browser (exec (QuestionInterface.handleSubmit disabled) w)) = true
  ∧ defaultPrevented
      (browser
         (exec (FileUpload.handleFileInput Home.handleUploadSuccess picked)
            w))
    = defaultPrevented (browser w).
Proof.
  assert (Hsel : ∀ file w0,
    defaultPrevented
      (browser
         (exec (FileUpload.handleFileSelect Home.handleUploadSuccess file)
            w0))
    = defaultPrevented (browser w0)).
  { intros file w0. unfold exec.
    rewrite handleFileSelect_run, uploadFile_run. cbn -[settle].
    destruct (settle _ _); reflexivity. }
  split; [|split].
  - unfold FileUpload.handleDrop.
    destruct (find _ files) as [pdfFile|]; [|reflexivity].
    exact (Hsel pdfFile (exec preventDefault w)).
  - rewrite handleSubmit_exec.
    destruct (negb (truthy (trim (question w)))
              || QuestionsState.loading (questions w) || disabled);
      [reflexivity|].
    rewrite askQuestion_hook_run. cbn -[settle trim].
    destruct (settle _ _) as [v|e]; [destruct (nullish v)|]; reflexivity.
  - unfold FileUpload.handleFileInput.
    destruct picked as [[|file rest]|]; cbn [head]; try reflexivity.
    apply Hsel.
Qed.

(** ** Uploads that overlap *)

Lemma settle_ok (fallback : jsstring) (o : FetchOutcome) (r : Response)
    (v : JsValue) :
  o = Responded r → 200 <= status r <= 299 → payload r = Json v →
  settle fallback o = Normal v.
Proof. intros. apply settle_resolves. eauto. Qed.

Lemma flight_invoke (file : File) (w : World)
    (calls : list (nat * (FetchOutcome → World → Run JsValue))) :
  ∃ resume,
    flight_step (Invoke file) (w, calls) =
      (send (upload_request w file)
         (useFileUpload.set_state
            (UploadState.mk true (UploadState.uploadResult (fileUpload w))
               None) w),
       calls ++ [(length (sent (browser w)), resume)])
    ∧ ∀ o w', resume o w' = uploadFile_resumed o w'.
Proof.
  destruct (uploadFile_suspends file w) as (resume & H & Hres).
  exists resume. split; [|exact Hres].
  cbn [flight_step]. rewrite H. reflexivity.
Qed.

Lemma flight_arrive (i n : nat) (w : World)
    (calls : list (nat * (FetchOutcome → World → Run JsValue)))
    (resume : FetchOutcome → World → Run JsValue) (r : Response)
    (v : JsValue) :
  calls !! i = Some (n, resume) →
  (∀ o w', resume o w' = uploadFile_resumed o w') →
  network (browser w) n = Responded r →
  200 <= status r <= 299 → payload r = Json v →
  flight_step (Arrive i) (w, calls) =
    (useFileUpload.set_state
       (UploadState.mk false v (UploadState.error (fileUpload w))) w,
     delete i calls).
Proof.
  intros Hi Hres Hn Hs Hp. cbn [flight_step]. unfold Flights in *.
  rewrite Hi, Hres, Hn.
  unfold uploadFile_resumed.
  rewrite (settle_ok _ _ r v eq_refl Hs Hp). reflexivity.
Qed.


